(** * Arcball rotation controller (src/RotationController.js)

    A shallow embedding of the [RotationController] class and of the
    three.js primitives it calls ([Vector3], [Quaternion], [Euler],
    [Matrix4], [MathUtils]), followed by the properties of the controller
    that the specification states.

    The JavaScript code computes with IEEE-754 doubles.  The embedding is
    written once, over an interface [Number] of the arithmetic the code
    uses, and is instantiated twice: with the real numbers (exact
    arithmetic, in which the general theorems are proved) and with
    binary64 values (on which the same definitions are run on concrete
    inputs). *)

From Stdlib Require Import ZArith List Bool Lia.
From Stdlib Require Import Reals Lra Psatz RNsatz.
From Stdlib Require Import Floats.SpecFloat.
Import ListNotations.

Set Implicit Arguments.

(** ** JavaScript numbers *)

(** The operations of JavaScript's [number] type that the controller
    uses: the four arithmetic operators, the comparison [<] ([a > b] is
    [b < a]), truthiness (as in [len || 1]) and the functions of [Math].
    [ofZ] is an integer literal; a decimal literal such as [0.0001] is
    written [ofZ 1 / ofZ 10000], whose correctly rounded quotient is the
    double that the literal denotes. *)
Class Number (num : Type) : Type := {
  ofZ : Z -> num;
  nadd : num -> num -> num;
  nsub : num -> num -> num;
  nmul : num -> num -> num;
  ndiv : num -> num -> num;
  nopp : num -> num;
  nlt : num -> num -> bool;
  ntruthy : num -> bool;
  Math_sqrt : num -> num;
  Math_abs : num -> num;
  Math_max : num -> num -> num;
  Math_min : num -> num -> num;
  Math_sin : num -> num;
  Math_cos : num -> num;
  Math_asin : num -> num;
  Math_acos : num -> num;
  Math_atan2 : num -> num -> num;
  Math_PI : num
}.

Declare Scope num_scope.
Delimit Scope num_scope with num.
Infix "+" := nadd : num_scope.
Infix "-" := nsub : num_scope.
Infix "*" := nmul : num_scope.
Infix "/" := ndiv : num_scope.
Notation "- x" := (nopp x) : num_scope.
Infix "<?" := nlt : num_scope.
Notation "x >? y" := (nlt y x) (only parsing) : num_scope.
Notation "# z" := (ofZ z%Z) (at level 1, format "# z") : num_scope.

(** ** Data *)

Section Data.
Variable num : Type.

(** [THREE.Vector3] *)
Record Vector3 : Type := mkVector3 { v_x : num; v_y : num; v_z : num }.

(** [THREE.Quaternion] *)
Record Quaternion : Type :=
  mkQuaternion { q_x : num; q_y : num; q_z : num; q_w : num }.

(** A plain [{x, y}] object: a screen location, a velocity, the ball
    center, an intermediate ball coordinate. *)
Record Point : Type := mkPoint { p_x : num; p_y : num }.

(** A plain [{x, y, z}] object, as returned by [getRotationEuler]. *)
Record Triple : Type := mkTriple { t_x : num; t_y : num; t_z : num }.

(** [THREE.Euler]; the controller only ever uses the order ['XYZ']. *)
Record Euler : Type := mkEuler { e_x : num; e_y : num; e_z : num }.

(** The rotation part of a [THREE.Matrix4]: the entries [te[0..2]],
    [te[4..6]] and [te[8..10]] of its column-major [elements] array. *)
Record Matrix4 : Type := mkMatrix4 {
  te0 : num; te1 : num; te2 : num;
  te4 : num; te5 : num; te6 : num;
  te8 : num; te9 : num; te10 : num
}.

(** [{width, height}] *)
Record ViewBounds : Type := mkViewBounds { width : num; height : num }.

(** The object [anglePackage] that [endDrag] allocates and that the
    interval callback captures. *)
Record AnglePackage : Type :=
  mkAnglePackage { radiansBegin : num; radians : num }.

(** The fields of a [RotationController] together with the part of its
    environment that it acts on: the orientation of the model
    ([this.model.quaternion]), the host's table of live interval timers
    (each with the [anglePackage] its callback closes over), the next
    identifier [setInterval] hands out, and the number of times the
    render callback has been invoked.  [onRender] records whether a
    callback is installed. *)
Record State : Type := mkState {
  model_quaternion : Quaternion;
  viewBounds : ViewBounds;
  kRotationRate : num;
  kRotationDecelerationRate : num;
  startVector : Vector3;
  isDragging : bool;
  rotationTimer : option nat;
  ballCenter : Point;
  ballRadius : num;
  quaternion : Quaternion;
  quaternionTouchDown : Quaternion;
  angleOfRotation : num;
  axisOfRotation : Vector3;
  onRender : bool;
  intervals : list (nat * AnglePackage);
  nextIntervalId : nat;
  renderCalls : nat
}.

Definition set_model_quaternion v (s : State) : State :=
  mkState v (viewBounds s) (kRotationRate s) (kRotationDecelerationRate s)
    (startVector s) (isDragging s) (rotationTimer s) (ballCenter s)
    (ballRadius s) (quaternion s) (quaternionTouchDown s)
    (angleOfRotation s) (axisOfRotation s) (onRender s) (intervals s)
    (nextIntervalId s) (renderCalls s).

Definition set_viewBounds v (s : State) : State :=
  mkState (model_quaternion s) v (kRotationRate s)
    (kRotationDecelerationRate s) (startVector s) (isDragging s)
    (rotationTimer s) (ballCenter s) (ballRadius s) (quaternion s)
    (quaternionTouchDown s) (angleOfRotation s) (axisOfRotation s)
    (onRender s) (intervals s) (nextIntervalId s) (renderCalls s).

Definition set_startVector v (s : State) : State :=
  mkState (model_quaternion s) (viewBounds s) (kRotationRate s)
    (kRotationDecelerationRate s) v (isDragging s) (rotationTimer s)
    (ballCenter s) (ballRadius s) (quaternion s) (quaternionTouchDown s)
    (angleOfRotation s) (axisOfRotation s) (onRender s) (intervals s)
    (nextIntervalId s) (renderCalls s).

Definition set_isDragging v (s : State) : State :=
  mkState (model_quaternion s) (viewBounds s) (kRotationRate s)
    (kRotationDecelerationRate s) (startVector s) v (rotationTimer s)
    (ballCenter s) (ballRadius s) (quaternion s) (quaternionTouchDown s)
    (angleOfRotation s) (axisOfRotation s) (onRender s) (intervals s)
    (nextIntervalId s) (renderCalls s).

Definition set_rotationTimer v (s : State) : State :=
  mkState (model_quaternion s) (viewBounds s) (kRotationRate s)
    (kRotationDecelerationRate s) (startVector s) (isDragging s) v
    (ballCenter s) (ballRadius s) (quaternion s) (quaternionTouchDown s)
    (angleOfRotation s) (axisOfRotation s) (onRender s) (intervals s)
    (nextIntervalId s) (renderCalls s).

Definition set_quaternion v (s : State) : State :=
  mkState (model_quaternion s) (viewBounds s) (kRotationRate s)
    (kRotationDecelerationRate s) (startVector s) (isDragging s)
    (rotationTimer s) (ballCenter s) (ballRadius s) v
    (quaternionTouchDown s) (angleOfRotation s) (axisOfRotation s)
    (onRender s) (intervals s) (nextIntervalId s) (renderCalls s).

Definition set_quaternionTouchDown v (s : State) : State :=
  mkState (model_quaternion s) (viewBounds s) (kRotationRate s)
    (kRotationDecelerationRate s) (startVector s) (isDragging s)
    (rotationTimer s) (ballCenter s) (ballRadius s) (quaternion s) v
    (angleOfRotation s) (axisOfRotation s) (onRender s) (intervals s)
    (nextIntervalId s) (renderCalls s).

Definition set_angleOfRotation v (s : State) : State :=
  mkState (model_quaternion s) (viewBounds s) (kRotationRate s)
    (kRotationDecelerationRate s) (startVector s) (isDragging s)
    (rotationTimer s) (ballCenter s) (ballRadius s) (quaternion s)
    (quaternionTouchDown s) v (axisOfRotation s) (onRender s)
    (intervals s) (nextIntervalId s) (renderCalls s).

Definition set_axisOfRotation v (s : State) : State :=
  mkState (model_quaternion s) (viewBounds s) (kRotationRate s)
    (kRotationDecelerationRate s) (startVector s) (isDragging s)
    (rotationTimer s) (ballCenter s) (ballRadius s) (quaternion s)
    (quaternionTouchDown s) (angleOfRotation s) v (onRender s)
    (intervals s) (nextIntervalId s) (renderCalls s).

Definition set_onRender v (s : State) : State :=
  mkState (model_quaternion s) (viewBounds s) (kRotationRate s)
    (kRotationDecelerationRate s) (startVector s) (isDragging s)
    (rotationTimer s) (ballCenter s) (ballRadius s) (quaternion s)
    (quaternionTouchDown s) (angleOfRotation s) (axisOfRotation s) v
    (intervals s) (nextIntervalId s) (renderCalls s).

Definition set_intervals v (s : State) : State :=
  mkState (model_quaternion s) (viewBounds s) (kRotationRate s)
    (kRotationDecelerationRate s) (startVector s) (isDragging s)
    (rotationTimer s) (ballCenter s) (ballRadius s) (quaternion s)
    (quaternionTouchDown s) (angleOfRotation s) (axisOfRotation s)
    (onRender s) v (nextIntervalId s) (renderCalls s).

Definition set_nextIntervalId v (s : State) : State :=
  mkState (model_quaternion s) (viewBounds s) (kRotationRate s)
    (kRotationDecelerationRate s) (startVector s) (isDragging s)
    (rotationTimer s) (ballCenter s) (ballRadius s) (quaternion s)
    (quaternionTouchDown s) (angleOfRotation s) (axisOfRotation s)
    (onRender s) (intervals s) v (renderCalls s).

Definition set_renderCalls v (s : State) : State :=
  mkState (model_quaternion s) (viewBounds s) (kRotationRate s)
    (kRotationDecelerationRate s) (startVector s) (isDragging s)
    (rotationTimer s) (ballCenter s) (ballRadius s) (quaternion s)
    (quaternionTouchDown s) (angleOfRotation s) (axisOfRotation s)
    (onRender s) (intervals s) (nextIntervalId s) v.
End Data.

Arguments mkVector3 {num}.
Arguments mkQuaternion {num}.
Arguments mkPoint {num}.
Arguments mkTriple {num}.
Arguments mkEuler {num}.
Arguments mkMatrix4 {num}.
Arguments mkViewBounds {num}.
Arguments mkAnglePackage {num}.
Arguments mkState {num}.

(** ** three.js *)

Section Three.
Context {num : Type} {N : Number num}.
Local Open Scope num_scope.

(** [MathUtils] *)
Definition DEG2RAD : num := Math_PI / #180.
Definition RAD2DEG : num := #180 / Math_PI.
Definition degToRad (degrees : num) : num := degrees * DEG2RAD.
Definition radToDeg (radians : num) : num := radians * RAD2DEG.
Definition clamp (value min max : num) : num :=
  Math_max min (Math_min max value).

(** [Vector3.dot] *)
Definition Vector3_dot (a v : Vector3 num) : num :=
  v_x a * v_x v + v_y a * v_y v + v_z a * v_z v.

(** [Vector3.crossVectors] *)
Definition Vector3_crossVectors (a b : Vector3 num) : Vector3 num :=
  let ax := v_x a in let ay := v_y a in let az := v_z a in
  let bx := v_x b in let by_ := v_y b in let bz := v_z b in
  mkVector3 (ay * bz - az * by_) (az * bx - ax * bz) (ax * by_ - ay * bx).

(** [Vector3.length] *)
Definition Vector3_length (v : Vector3 num) : num :=
  Math_sqrt (v_x v * v_x v + v_y v * v_y v + v_z v * v_z v).

Definition Vector3_multiplyScalar (v : Vector3 num) (scalar : num) :=
  mkVector3 (v_x v * scalar) (v_y v * scalar) (v_z v * scalar).

Definition Vector3_divideScalar (v : Vector3 num) (scalar : num) :=
  Vector3_multiplyScalar v (#1 / scalar).

(** [Vector3.normalize]: [this.divideScalar(this.length() || 1)] *)
Definition Vector3_normalize (v : Vector3 num) : Vector3 num :=
  let l := Vector3_length v in
  Vector3_divideScalar v (if ntruthy l then l else #1).

(** [Quaternion.setFromAxisAngle]; three.js documents that the axis is
    assumed to be normalized and does not normalize it. *)
Definition Quaternion_setFromAxisAngle (axis : Vector3 num) (angle : num)
  : Quaternion num :=
  let halfAngle := angle / #2 in
  let s := Math_sin halfAngle in
  mkQuaternion (v_x axis * s) (v_y axis * s) (v_z axis * s)
    (Math_cos halfAngle).

(** [Quaternion.multiplyQuaternions(a, b)]: the Hamilton product [a b].
    The components of both arguments are read before any is written, so
    the receiver may be one of the arguments. *)
Definition Quaternion_multiplyQuaternions (a b : Quaternion num)
  : Quaternion num :=
  let qax := q_x a in let qay := q_y a in
  let qaz := q_z a in let qaw := q_w a in
  let qbx := q_x b in let qby := q_y b in
  let qbz := q_z b in let qbw := q_w b in
  mkQuaternion
    (qax * qbw + qaw * qbx + qay * qbz - qaz * qby)
    (qay * qbw + qaw * qby + qaz * qbx - qax * qbz)
    (qaz * qbw + qaw * qbz + qax * qby - qay * qbx)
    (qaw * qbw - qax * qbx - qay * qby - qaz * qbz).

(** [Quaternion.length] *)
Definition Quaternion_length (q : Quaternion num) : num :=
  Math_sqrt (q_x q * q_x q + q_y q * q_y q + q_z q * q_z q + q_w q * q_w q).

(** [Quaternion.setFromEuler], case ['XYZ'] *)
Definition Quaternion_setFromEuler (euler : Euler num) : Quaternion num :=
  let x := e_x euler in let y := e_y euler in let z := e_z euler in
  let c1 := Math_cos (x / #2) in
  let c2 := Math_cos (y / #2) in
  let c3 := Math_cos (z / #2) in
  let s1 := Math_sin (x / #2) in
  let s2 := Math_sin (y / #2) in
  let s3 := Math_sin (z / #2) in
  mkQuaternion
    (s1 * c2 * c3 + c1 * s2 * s3)
    (c1 * s2 * c3 - s1 * c2 * s3)
    (c1 * c2 * s3 + s1 * s2 * c3)
    (c1 * c2 * c3 - s1 * s2 * s3).

(** [Matrix4.makeRotationFromQuaternion(q)], which is
    [compose(zero, q, one)]: the scale factors are all [1]. *)
Definition Matrix4_makeRotationFromQuaternion (q : Quaternion num)
  : Matrix4 num :=
  let x := q_x q in let y := q_y q in let z := q_z q in let w := q_w q in
  let x2 := x + x in let y2 := y + y in let z2 := z + z in
  let xx := x * x2 in let xy := x * y2 in let xz := x * z2 in
  let yy := y * y2 in let yz := y * z2 in let zz := z * z2 in
  let wx := w * x2 in let wy := w * y2 in let wz := w * z2 in
  let sx := #1 in let sy := #1 in let sz := #1 in
  mkMatrix4
    ((#1 - (yy + zz)) * sx) ((xy + wz) * sx) ((xz - wy) * sx)
    ((xy - wz) * sy) ((#1 - (xx + zz)) * sy) ((yz + wx) * sy)
    ((xz + wy) * sz) ((yz - wx) * sz) ((#1 - (xx + yy)) * sz).

(** [Euler.setFromRotationMatrix], case ['XYZ'] *)
Definition Euler_setFromRotationMatrix (m : Matrix4 num) : Euler num :=
  let m11 := te0 m in let m12 := te4 m in let m13 := te8 m in
  let m22 := te5 m in let m23 := te9 m in
  let m32 := te6 m in let m33 := te10 m in
  let y := Math_asin (clamp m13 (- #1) #1) in
  if Math_abs m13 <? #9999999 / #10000000 then
    mkEuler (Math_atan2 (- m23) m33) y (Math_atan2 (- m12) m11)
  else
    mkEuler (Math_atan2 m32 m22) y #0.

(** [Euler.setFromQuaternion(q, 'XYZ')] *)
Definition Euler_setFromQuaternion (q : Quaternion num) : Euler num :=
  Euler_setFromRotationMatrix (Matrix4_makeRotationFromQuaternion q).

End Three.

(** ** The host: interval timers and the render callback *)

Section Host.
Context {num : Type}.

(** [setInterval(() => this.rotationTimerHandler(anglePackage), delay)]:
    registers a periodic timer whose callback closes over [anglePackage]
    and returns its identifier.  Time is not modelled: any live timer may
    fire at any moment (see [fireInterval]), so the delay plays no role. *)
Definition setInterval (anglePackage : AnglePackage num) (s : State num)
  : nat * State num :=
  let id := nextIntervalId s in
  (id, set_nextIntervalId (S id)
         (set_intervals (intervals s ++ [(id, anglePackage)]) s)).

(** [clearInterval(id)]: removes the timer; nothing happens for [null]
    or for an identifier that names no live timer. *)
Definition clearInterval (id : option nat) (s : State num) : State num :=
  match id with
  | None => s
  | Some i =>
      set_intervals
        (filter (fun e => negb (Nat.eqb (fst e) i)) (intervals s)) s
  end.

Fixpoint lookupInterval (id : nat) (l : list (nat * AnglePackage num))
  : option (AnglePackage num) :=
  match l with
  | [] => None
  | (i, p) :: l' => if Nat.eqb i id then Some p else lookupInterval id l'
  end.

Definition storeInterval (id : nat) (p : AnglePackage num)
  (l : list (nat * AnglePackage num)) : list (nat * AnglePackage num) :=
  map (fun e => if Nat.eqb (fst e) id then (id, p) else e) l.

(** [if (this.onRender) { this.onRender(); }] *)
Definition triggerRender (s : State num) : State num :=
  if onRender s then set_renderCalls (S (renderCalls s)) s else s.

End Host.

(** ** RotationController *)

Section Controller.
Context {num : Type} {N : Number num}.
Local Open Scope num_scope.

Definition constructor (model : Quaternion num) (rect : ViewBounds num)
  : State num :=
  {| model_quaternion := model;
     viewBounds := mkViewBounds (width rect) (height rect);
     kRotationRate := #1 / #30;
     kRotationDecelerationRate := #1 / #60;
     startVector := mkVector3 #0 #0 #0;
     isDragging := false;
     rotationTimer := None;
     ballCenter := mkPoint #0 #0;
     ballRadius := #1;
     quaternion := model;
     quaternionTouchDown := model;
     angleOfRotation := #0;
     axisOfRotation := mkVector3 #0 #0 #0;
     onRender := false;
     intervals := [];
     nextIntervalId := 1;
     renderCalls := 0 |}.

Definition reshape (s : State num) (bounds : ViewBounds num) : State num :=
  set_viewBounds bounds s.

Definition locationInBallCoordinates (s : State num)
  (screenLocation : Point num) : Point num :=
  let ballBBoxSizeScreenCoordinates :=
    Math_max (width (viewBounds s)) (height (viewBounds s)) in
  let x := (#2 * (p_x screenLocation - #0) / width (viewBounds s)) - #1 in
  let x := x * (width (viewBounds s) / ballBBoxSizeScreenCoordinates) in
  let y := (#2 * (p_y screenLocation - #0) / height (viewBounds s)) - #1 in
  let y := y * (height (viewBounds s) / ballBBoxSizeScreenCoordinates) in
  let y := y * #(-1) in
  mkPoint x y.

Definition ballLocationInCameraSpaceXYPlane (s : State num)
  (screenLocation : Point num) : Vector3 num :=
  let locationInBallCoordinates :=
    locationInBallCoordinates s screenLocation in
  let ballLocation_x :=
    (p_x locationInBallCoordinates - p_x (ballCenter s)) / ballRadius s in
  let ballLocation_y :=
    (p_y locationInBallCoordinates - p_y (ballCenter s)) / ballRadius s in
  let magnitude :=
    ballLocation_x * ballLocation_x + ballLocation_y * ballLocation_y in
  if magnitude >? #1 then
    let scale := #1 / Math_sqrt magnitude in
    let ballLocation_x := ballLocation_x * scale in
    let ballLocation_y := ballLocation_y * scale in
    mkVector3 ballLocation_x ballLocation_y #0
  else
    mkVector3 ballLocation_x ballLocation_y (Math_sqrt (#1 - magnitude)).

Definition ballLocationInCameraSpaceXZPlane (s : State num)
  (screenLocation : Point num) : Vector3 num :=
  let locationInBallCoordinates :=
    locationInBallCoordinates s screenLocation in
  let ballLocation_x :=
    (p_x locationInBallCoordinates - p_x (ballCenter s)) / ballRadius s in
  let ballLocation_z :=
    (p_y locationInBallCoordinates - p_y (ballCenter s)) / ballRadius s in
  let magnitude :=
    ballLocation_x * ballLocation_x + ballLocation_z * ballLocation_z in
  if magnitude >? #1 then
    let scale := #1 / Math_sqrt magnitude in
    let ballLocation_x := ballLocation_x * scale in
    let ballLocation_z := ballLocation_z * scale in
    mkVector3 ballLocation_x #0 ballLocation_z
  else
    mkVector3 ballLocation_x (- Math_sqrt (#1 - magnitude)) ballLocation_z.

Definition beginDrag (s : State num) (screenLocation : Point num)
  : State num :=
  let s :=
    match rotationTimer s with
    | Some t => set_rotationTimer None (clearInterval (Some t) s)
    | None => s
    end in
  let s := set_isDragging true s in
  set_startVector (ballLocationInCameraSpaceXYPlane s screenLocation) s.

Definition updateDrag (s : State num) (screenLocation : Point num)
  : State num :=
  let endVector := ballLocationInCameraSpaceXYPlane s screenLocation in
  let s :=
    set_angleOfRotation
      (Math_acos
         (Math_max #(-1)
            (Math_min #1 (Vector3_dot (startVector s) endVector)))) s in
  let s :=
    set_axisOfRotation (Vector3_crossVectors (startVector s) endVector) s in
  let axisLength := Vector3_length (axisOfRotation s) in
  if axisLength <? #1 / #10000 then s
  else
    let s := set_axisOfRotation (Vector3_normalize (axisOfRotation s)) s in
    let quaternionDrag :=
      Quaternion_setFromAxisAngle (axisOfRotation s) (angleOfRotation s) in
    let s :=
      set_quaternion
        (Quaternion_multiplyQuaternions quaternionDrag
           (quaternionTouchDown s)) s in
    let s := set_model_quaternion (quaternion s) s in
    triggerRender s.

Definition endDrag (s : State num) (velocityInView locationInView : Point num)
  : State num :=
  let s := set_isDragging false s in
  let s := set_quaternionTouchDown (quaternion s) s in
  let velocityMagnitude :=
    Math_sqrt (p_x velocityInView * p_x velocityInView
               + p_y velocityInView * p_y velocityInView) in
  if velocityMagnitude <? #1 / #10 then s
  else
    let xx := kRotationRate s * p_x velocityInView + p_x locationInView in
    let yy := kRotationRate s * p_y velocityInView + p_y locationInView in
    let screenLocationTo := mkPoint xx yy in
    let a := ballLocationInCameraSpaceXYPlane s locationInView in
    let b := ballLocationInCameraSpaceXYPlane s screenLocationTo in
    let radians :=
      Math_acos (Math_max #(-1) (Math_min #1 (Vector3_dot a b))) in
    if radians <? #1 / #1000 then s
    else
      let anglePackage := mkAnglePackage radians radians in
      let (id, s) := setInterval anglePackage s in
      set_rotationTimer (Some id) s.

(** The handler mutates the [anglePackage] it is given; the embedding
    returns the package as the handler leaves it. *)
Definition rotationTimerHandler (s : State num)
  (anglePackage : AnglePackage num) : State num * AnglePackage num :=
  let radiansBegin := radiansBegin anglePackage in
  let radians := radians anglePackage in
  if radians <? #0 then
    let s := clearInterval (rotationTimer s) s in
    (set_rotationTimer None s, anglePackage)
  else
    let updated := radians - kRotationDecelerationRate s * radiansBegin in
    let anglePackage := mkAnglePackage radiansBegin updated in
    let quaternionDrag :=
      Quaternion_setFromAxisAngle (axisOfRotation s) updated in
    let s :=
      set_quaternion
        (Quaternion_multiplyQuaternions quaternionDrag
           (quaternionTouchDown s)) s in
    let s := set_model_quaternion (quaternion s) s in
    let s := set_quaternionTouchDown (quaternion s) s in
    (triggerRender s, anglePackage).

(** The host fires the live timer [id]: its callback runs the handler on
    the package it closes over.  A cleared timer never fires. *)
Definition fireInterval (s : State num) (id : nat) : State num :=
  match lookupInterval id (intervals s) with
  | None => s
  | Some anglePackage =>
      let (s', anglePackage') := rotationTimerHandler s anglePackage in
      set_intervals (storeInterval id anglePackage' (intervals s')) s'
  end.

Definition isCurrentlyDragging (s : State num) : bool :=
  isDragging s || match rotationTimer s with Some _ => true | None => false end.

Definition stopDrag (s : State num) : State num :=
  let s := set_isDragging false s in
  let s :=
    match rotationTimer s with
    | Some t => set_rotationTimer None (clearInterval (Some t) s)
    | None => s
    end in
  set_startVector (mkVector3 #0 #0 #0) s.

(** [getRotationEuler] reads the model and returns a fresh object; it
    assigns no field. *)
Definition getRotationEuler (s : State num) : Triple num :=
  let euler := Euler_setFromQuaternion (model_quaternion s) in
  mkTriple (radToDeg (e_x euler)) (radToDeg (e_y euler))
    (radToDeg (e_z euler)).

Definition setRotationEuler (s : State num) (x y z : num) : State num :=
  let euler := mkEuler (degToRad x) (degToRad y) (degToRad z) in
  let s := set_model_quaternion (Quaternion_setFromEuler euler) s in
  let s := set_quaternion (model_quaternion s) s in
  let s := set_quaternionTouchDown (model_quaternion s) s in
  triggerRender s.

(** The body shared by the five nudges: rotate the model by [angle]
    radians about the fixed [axis], then copy the model's orientation
    into both controller slots. *)
Definition nudge (s : State num) (axis : Vector3 num) (angle : num)
  : State num :=
  let rotationQuaternion := Quaternion_setFromAxisAngle axis angle in
  let s :=
    set_model_quaternion
      (Quaternion_multiplyQuaternions rotationQuaternion
         (model_quaternion s)) s in
  let s := set_quaternion (model_quaternion s) s in
  let s := set_quaternionTouchDown (model_quaternion s) s in
  triggerRender s.

Definition rotateClockwise (s : State num) (degrees : num) : State num :=
  nudge s (mkVector3 #0 #1 #0) (degToRad (- degrees)).

Definition rotateCounterclockwise (s : State num) (degrees : num)
  : State num :=
  nudge s (mkVector3 #0 #1 #0) (degToRad degrees).

Definition nudgePitchUp (s : State num) (degrees : num) : State num :=
  nudge s (mkVector3 #1 #0 #0) (degToRad degrees).

Definition nudgePitchDown (s : State num) (degrees : num) : State num :=
  nudge s (mkVector3 #1 #0 #0) (degToRad (- degrees)).

Definition nudgeRoll (s : State num) (degrees : num) : State num :=
  nudge s (mkVector3 #0 #0 #1) (degToRad degrees).

(** *** Sequences of calls *)

(** What can happen to a controller: a call of one of its public
    methods, the assignment of its [onRender] property, or the host
    firing one of the interval timers. *)
Inductive Op : Type :=
| Reshape (bounds : ViewBounds num)
| BeginDrag (screenLocation : Point num)
| UpdateDrag (screenLocation : Point num)
| EndDrag (velocityInView locationInView : Point num)
| StopDrag
| GetRotationEuler
| SetRotationEuler (x y z : num)
| RotateClockwise (degrees : num)
| RotateCounterclockwise (degrees : num)
| NudgePitchUp (degrees : num)
| NudgePitchDown (degrees : num)
| NudgeRoll (degrees : num)
| SetOnRender (installed : bool)
| Fire (id : nat).

Definition step (s : State num) (op : Op) : State num :=
  match op with
  | Reshape b => reshape s b
  | BeginDrag p => beginDrag s p
  | UpdateDrag p => updateDrag s p
  | EndDrag v p => endDrag s v p
  | StopDrag => stopDrag s
  | GetRotationEuler => s
  | SetRotationEuler x y z => setRotationEuler s x y z
  | RotateClockwise d => rotateClockwise s d
  | RotateCounterclockwise d => rotateCounterclockwise s d
  | NudgePitchUp d => nudgePitchUp s d
  | NudgePitchDown d => nudgePitchDown s d
  | NudgeRoll d => nudgeRoll s d
  | SetOnRender b => set_onRender b s
  | Fire id => fireInterval s id
  end.

Definition run (s : State num) (ops : list Op) : State num :=
  fold_left step ops s.

(** The host fires the timer [id] [n] times in a row. *)
Definition ticks (s : State num) (id : nat) (n : nat) : State num :=
  run s (repeat (Fire id) n).

(** Dragging and a stored momentum timer exclude each other. *)
Definition exclusive (s : State num) : Prop :=
  isDragging s = false \/ rotationTimer s = None.

(** The in-plane ball coordinates of a screen point, before the
    projection onto the sphere. *)
Definition planeX (s : State num) (screenLocation : Point num) : num :=
  (p_x (locationInBallCoordinates s screenLocation) - p_x (ballCenter s))
  / ballRadius s.

Definition planeY (s : State num) (screenLocation : Point num) : num :=
  (p_y (locationInBallCoordinates s screenLocation) - p_y (ballCenter s))
  / ballRadius s.

(** The angle and the axis that [updateDrag] computes first. *)
Definition dragAngle (s : State num) (p : Point num) : num :=
  Math_acos
    (Math_max #(-1)
       (Math_min #1
          (Vector3_dot (startVector s)
             (ballLocationInCameraSpaceXYPlane s p)))).

Definition dragCross (s : State num) (p : Point num) : Vector3 num :=
  Vector3_crossVectors (startVector s) (ballLocationInCameraSpaceXYPlane s p).

Definition dragQuaternion (s : State num) (p : Point num) : Quaternion num :=
  Quaternion_setFromAxisAngle (Vector3_normalize (dragCross s p))
    (dragAngle s p).

(** The angle that [endDrag] projects from the release velocity, and the
    speed it tests first. *)
Definition releaseAngle (s : State num) (v p : Point num) : num :=
  let xx := kRotationRate s * p_x v + p_x p in
  let yy := kRotationRate s * p_y v + p_y p in
  Math_acos
    (Math_max #(-1)
       (Math_min #1
          (Vector3_dot (ballLocationInCameraSpaceXYPlane s p)
             (ballLocationInCameraSpaceXYPlane s (mkPoint xx yy))))).

Definition releaseSpeed (v : Point num) : num :=
  Math_sqrt (p_x v * p_x v + p_y v * p_y v).

(** *** A concrete scene *)

Definition identityQuaternion : Quaternion num := mkQuaternion #0 #0 #0 #1.

(** A fresh controller on an 800 x 600 canvas whose model is not rotated. *)
Definition fresh : State num :=
  constructor identityQuaternion (mkViewBounds #800 #600).

Definition center : Point num := mkPoint #400 #300.
Definition rightEdge : Point num := mkPoint #800 #300.
Definition flick : Point num := mkPoint #12000 #0.

(** A drag from the center to the right edge, and back to the center. *)
Definition afterBegin : State num := beginDrag fresh center.
Definition afterDrag : State num := updateDrag afterBegin rightEdge.
Definition afterReturn : State num := updateDrag afterDrag center.

(** A press at the center released at once with a fast flick to the
    right, and the same release reported a second time. *)
Definition released : State num := endDrag afterBegin flick center.
Definition releasedTwice : State num := endDrag released flick center.

(** The fresh controller once [endDrag] has started a momentum animation
    of angle [r]: timer [1] is live and stored, its package is [(r, r)]. *)
Definition momentumStarted (r : num) : State num :=
  set_rotationTimer (Some 1%nat)
    (set_nextIntervalId 2%nat
       (set_intervals [(1%nat, mkAnglePackage r r)]
          (set_startVector (ballLocationInCameraSpaceXYPlane fresh center)
             fresh))).

(** A drag from the center to the right edge released with the flick. *)
Definition draggedAndReleased : State num := endDrag afterDrag flick center.

(** *** Predicates on states and on sequences of calls *)

(** The timer [id] is in the host's table. *)
Definition isLive (id : nat) (s : State num) : bool :=
  match lookupInterval id (intervals s) with
  | Some _ => true
  | None => false
  end.

(** The handle in [rotationTimer], if any, names a live timer. *)
Definition storedTimerLive (s : State num) : Prop :=
  match rotationTimer s with
  | Some id => isLive id s = true
  | None => True
  end.

(** No timer is live when none is stored, and exactly the stored one is
    live otherwise. *)
Definition onlyStoredTimer (s : State num) : Prop :=
  match rotationTimer s with
  | None => intervals s = []
  | Some t => exists p, intervals s = [(t, p)]
  end.

(** Every [endDrag] of the sequence is called while a drag is in
    progress. *)
Fixpoint wellSequenced (s : State num) (ops : list Op) : Prop :=
  match ops with
  | [] => True
  | op :: rest =>
      match op with
      | EndDrag _ _ => isDragging s = true
      | _ => True
      end
      /\ wellSequenced (step s op) rest
  end.

End Controller.

(** ** Exact arithmetic: the real numbers *)

Definition Rltb (a b : R) : bool := if Rlt_dec a b then true else false.

Definition Rtruthy (a : R) : bool := if Req_dec_T a 0 then false else true.

(** [Math.atan2(y, x)] on the reals: the angle in (-PI, PI] of the point
    [(x, y)], and [0] at the origin. *)
Definition Ratan2 (y x : R) : R :=
  if Rlt_dec 0 x then atan (y / x)
  else if Rlt_dec x 0 then
    if Rle_dec 0 y then atan (y / x) + PI else atan (y / x) - PI
  else if Rlt_dec 0 y then PI / 2
  else if Rlt_dec y 0 then - (PI / 2)
  else 0.

#[export] Instance Number_R : Number R := {|
  ofZ := IZR;
  nadd := Rplus;
  nsub := Rminus;
  nmul := Rmult;
  ndiv := Rdiv;
  nopp := Ropp;
  nlt := Rltb;
  ntruthy := Rtruthy;
  Math_sqrt := sqrt;
  Math_abs := Rabs;
  Math_max := Rmax;
  Math_min := Rmin;
  Math_sin := sin;
  Math_cos := cos;
  Math_asin := asin;
  Math_acos := acos;
  Math_atan2 := Ratan2;
  Math_PI := PI
|}.

(** ** IEEE-754 doubles *)

Module Binary64.

Definition prec : Z := 53.
Definition emax : Z := 1024.

(** The double nearest to an integer. *)
Definition of_Z (z : Z) : spec_float := binary_normalize prec emax z 0 false.

(** [false] for [+0], [-0] and [NaN]. *)
Definition truthy (f : spec_float) : bool :=
  match f with
  | S754_zero _ | S754_nan => false
  | _ => true
  end.

(** [Math.max]: [NaN] if either argument is, and [+0] above [-0]. *)
Definition max (a b : spec_float) : spec_float :=
  match SFcompare a b with
  | None => S754_nan
  | Some Lt => b
  | Some Gt => a
  | Some Eq => match a with S754_zero true => b | _ => a end
  end.

Definition min (a b : spec_float) : spec_float :=
  match SFcompare a b with
  | None => S754_nan
  | Some Lt => a
  | Some Gt => b
  | Some Eq => match a with S754_zero false => b | _ => a end
  end.

(** [Math.PI = 0x1.921fb54442d18p+1] *)
Definition PI : spec_float := S754_finite false 7074237752028440 (-51).

(** The trigonometric functions of [Math] are implementation-defined
    approximations; they stay abstract. *)
Class Trigonometry : Type := {
  fsin : spec_float -> spec_float;
  fcos : spec_float -> spec_float;
  fasin : spec_float -> spec_float;
  facos : spec_float -> spec_float;
  fatan2 : spec_float -> spec_float -> spec_float
}.

#[global] Instance Number_binary64 {T : Trigonometry} : Number spec_float := {|
  ofZ := of_Z;
  nadd := SFadd prec emax;
  nsub := SFsub prec emax;
  nmul := SFmul prec emax;
  ndiv := SFdiv prec emax;
  nopp := SFopp;
  nlt := SFltb;
  ntruthy := truthy;
  Math_sqrt := SFsqrt prec emax;
  Math_abs := SFabs;
  Math_max := max;
  Math_min := min;
  Math_sin := fsin;
  Math_cos := fcos;
  Math_asin := fasin;
  Math_acos := facos;
  Math_atan2 := fatan2;
  Math_PI := PI
|}.

End Binary64.

(** ** The scene in exact arithmetic *)

(** The view of the fresh controller: an 800 x 600 canvas and the
    default ball. *)
Definition standardView (s : State R) : Prop :=
  viewBounds s = mkViewBounds 800%R 600%R
  /\ ballCenter s = mkPoint 0%R 0%R
  /\ ballRadius s = 1%R.

(** The three orientations have norm 1 and the stored axis is
    normalized. *)
Definition unitOrientations (s : State R) : Prop :=
  Quaternion_length (model_quaternion s) = 1%R
  /\ Quaternion_length (quaternion s) = 1%R
  /\ Quaternion_length (quaternionTouchDown s) = 1%R
  /\ Vector3_length (axisOfRotation s) = 1%R.

(** Every [updateDrag] of the sequence is accepted: its cross product is
    at least 1e-4 long. *)
Fixpoint acceptedUpdatesOnly (s : State R) (ops : list Op) : Prop :=
  match ops with
  | [] => True
  | op :: rest =>
      match op with
      | UpdateDrag p => (1 / 10000 <= Vector3_length (dragCross s p))%R
      | _ => True
      end
      /\ acceptedUpdatesOnly (step s op) rest
  end.

(** * Properties *)

Local Open Scope R_scope.

(** ** Reasoning in the real instance *)

(** Replaces the operations of [Number_R] by the operations of [R]. *)
Ltac real_ops :=
  cbv [ofZ nadd nsub nmul ndiv nopp nlt ntruthy Math_sqrt Math_abs Math_max
       Math_min Math_sin Math_cos Math_asin Math_acos Math_atan2 Math_PI
       Number_R] in *;
  fold Number_R in *.

Lemma Rltb_true (a b : R) : a < b -> Rltb a b = true.
Proof. intros H. unfold Rltb. destruct (Rlt_dec a b); [reflexivity | contradiction]. Qed.

Lemma Rltb_false (a b : R) : b <= a -> Rltb a b = false.
Proof. intros H. unfold Rltb. destruct (Rlt_dec a b); [lra | reflexivity]. Qed.

Lemma sqrt_unit_sum (a : R) : sqrt a = 1 <-> a = 1.
Proof.
  split; intros H.
  - destruct (Rle_dec 0 a) as [Ha | Ha].
    + rewrite <- (sqrt_sqrt a Ha), H. lra.
    + rewrite sqrt_neg_0 in H by lra. lra.
  - subst a. apply sqrt_1.
Qed.

(** ** The ball projection *)

(** The two branches of the projection, on the in-plane coordinates. *)
Lemma rescaled_unit (x y : R) :
  1 < x * x + y * y ->
  let scale := 1 / sqrt (x * x + y * y) in
  (x * scale) * (x * scale) + (y * scale) * (y * scale) = 1.
Proof.
  intros Hm scale. unfold scale.
  assert (Hs : sqrt (x * x + y * y) * sqrt (x * x + y * y) = x * x + y * y)
    by (apply sqrt_sqrt; lra).
  assert (Hpos : 0 < sqrt (x * x + y * y)) by (apply sqrt_lt_R0; lra).
  set (r := sqrt (x * x + y * y)) in *.
  replace (x * (1 / r) * (x * (1 / r)) + y * (1 / r) * (y * (1 / r)))
    with ((x * x + y * y) / (r * r)) by (field; lra).
  rewrite Hs. field. lra.
Qed.

Lemma on_sphere_unit (x y : R) :
  x * x + y * y <= 1 ->
  let h := sqrt (1 - (x * x + y * y)) in
  x * x + y * y + h * h = 1.
Proof.
  intros Hm h. unfold h. rewrite sqrt_sqrt by lra. lra.
Qed.

(** C1. For every state of the controller (so in particular for positive
    view bounds and the default ball center and radius) and every screen
    point, both ball projections return a vector of length 1.  With [m]
    the squared magnitude of the in-plane coordinates [(x, y)]: when
    [m > 1] the two in-plane components are [x] and [y] rescaled by
    [1 / sqrt m] and the third component is [0]; otherwise the third
    component is [sqrt (1 - m)] in the XY variant and [- sqrt (1 - m)] in
    the XZ variant. *)
Theorem ball_projection_unit_length :
  forall (s : State R) (screenLocation : Point R),
    let l := locationInBallCoordinates s screenLocation in
    let x := (p_x l - p_x (ballCenter s)) / ballRadius s in
    let y := (p_y l - p_y (ballCenter s)) / ballRadius s in
    let m := x * x + y * y in
    let xy := ballLocationInCameraSpaceXYPlane s screenLocation in
    let xz := ballLocationInCameraSpaceXZPlane s screenLocation in
    Vector3_length xy = 1
    /\ Vector3_length xz = 1
    /\ (1 < m ->
        xy = mkVector3 (x * (1 / sqrt m)) (y * (1 / sqrt m)) 0
        /\ xz = mkVector3 (x * (1 / sqrt m)) 0 (y * (1 / sqrt m)))
    /\ (m <= 1 ->
        xy = mkVector3 x y (sqrt (1 - m))
        /\ xz = mkVector3 x (- sqrt (1 - m)) y).
Proof.
  intros s p l x y m xy xz.
  assert (Hxy : xy = if Rlt_dec 1 m
                     then mkVector3 (x * (1 / sqrt m)) (y * (1 / sqrt m)) 0
                     else mkVector3 x y (sqrt (1 - m))).
  { unfold xy, ballLocationInCameraSpaceXYPlane. real_ops. fold l.
    fold x y m. unfold Rltb. destruct (Rlt_dec 1 m); reflexivity. }
  assert (Hxz : xz = if Rlt_dec 1 m
                     then mkVector3 (x * (1 / sqrt m)) 0 (y * (1 / sqrt m))
                     else mkVector3 x (- sqrt (1 - m)) y).
  { unfold xz, ballLocationInCameraSpaceXZPlane. real_ops. fold l.
    fold x y m. unfold Rltb. destruct (Rlt_dec 1 m); reflexivity. }
  rewrite Hxy, Hxz. clear Hxy Hxz xy xz.
  destruct (Rlt_dec 1 m) as [Hm | Hm].
  - pose proof (@rescaled_unit x y Hm) as Hu. cbv zeta in Hu. fold m in Hu.
    repeat split; try (intros; lra).
    + unfold Vector3_length. real_ops. cbn [v_x v_y v_z].
      apply sqrt_unit_sum. rewrite Rmult_0_l, Rplus_0_r. exact Hu.
    + unfold Vector3_length. real_ops. cbn [v_x v_y v_z].
      apply sqrt_unit_sum. rewrite Rmult_0_l, Rplus_0_r. exact Hu.
  - assert (Hle : m <= 1) by lra.
    pose proof (@on_sphere_unit x y Hle) as Hu. cbv zeta in Hu. fold m in Hu.
    repeat split; try (intros; lra).
    + unfold Vector3_length. real_ops. cbn [v_x v_y v_z].
      apply sqrt_unit_sum. exact Hu.
    + unfold Vector3_length. real_ops. cbn [v_x v_y v_z].
      apply sqrt_unit_sum.
      transitivity (m + sqrt (1 - m) * sqrt (1 - m));
        [unfold m; ring | exact Hu].
Qed.

(** ** The drag / momentum state machine, for any arithmetic *)

Section StateMachine.
Context {num : Type} {N : Number num}.

Lemma lookupInterval_cleared (id : nat) (l : list (nat * AnglePackage num)) :
  lookupInterval id (filter (fun e => negb (Nat.eqb (fst e) id)) l) = None.
Proof.
  induction l as [| [i p] l IH]; [reflexivity |].
  cbn [filter fst]. destruct (Nat.eqb i id) eqn:E; cbn [negb].
  - exact IH.
  - cbn [lookupInterval]. rewrite E. exact IH.
Qed.

Lemma lookupInterval_stored (id : nat) (p p0 : AnglePackage num)
  (l : list (nat * AnglePackage num)) :
  lookupInterval id l = Some p0 ->
  lookupInterval id (storeInterval id p l) = Some p.
Proof.
  induction l as [| [i q] l IH]; [discriminate |].
  cbn [lookupInterval storeInterval map fst].
  destruct (Nat.eqb i id) eqn:E; intros H.
  - cbn [lookupInterval]. rewrite Nat.eqb_refl. reflexivity.
  - cbn [lookupInterval]. rewrite E. apply IH. exact H.
Qed.

Lemma lookupInterval_stored_none (id : nat) (p : AnglePackage num)
  (l : list (nat * AnglePackage num)) :
  lookupInterval id l = None ->
  lookupInterval id (storeInterval id p l) = None.
Proof.
  induction l as [| [i q] l IH]; [reflexivity |].
  cbn [lookupInterval storeInterval map fst].
  destruct (Nat.eqb i id) eqn:E; intros H; [discriminate |].
  cbn [lookupInterval]. rewrite E. apply IH. exact H.
Qed.

Lemma ticks_succ (s : State num) (id : nat) (n : nat) :
  ticks s id (S n) = fireInterval (ticks s id n) id.
Proof.
  unfold ticks, run.
  replace (repeat (@Fire num id) (S n))
    with (repeat (@Fire num id) n ++ [@Fire num id]).
  - rewrite fold_left_app. reflexivity.
  - clear s. induction n as [| n IH]; [reflexivity |].
    cbn [repeat app] in *. rewrite IH. reflexivity.
Qed.

(** What one firing of the stored timer does, by the sign test of the
    handler. *)
Lemma fire_terminal (s : State num) (id : nat) (p : AnglePackage num) :
  lookupInterval id (intervals s) = Some p ->
  nlt (radians p) (ofZ 0) = true ->
  fireInterval s id
  = (let s1 := set_rotationTimer None (clearInterval (rotationTimer s) s) in
     set_intervals (storeInterval id p (intervals s1)) s1).
Proof.
  intros Hl Hlt. unfold fireInterval, rotationTimerHandler.
  rewrite Hl, Hlt. reflexivity.
Qed.

Lemma fire_running (s : State num) (id : nat) (p : AnglePackage num) :
  lookupInterval id (intervals s) = Some p ->
  nlt (radians p) (ofZ 0) = false ->
  let updated :=
    nsub (radians p) (nmul (kRotationDecelerationRate s) (radiansBegin p)) in
  let q :=
    Quaternion_multiplyQuaternions
      (Quaternion_setFromAxisAngle (axisOfRotation s) updated)
      (quaternionTouchDown s) in
  fireInterval s id
  = set_intervals
      (storeInterval id (mkAnglePackage (radiansBegin p) updated)
         (intervals s))
      (triggerRender
         (set_quaternionTouchDown q
            (set_model_quaternion q (set_quaternion q s)))).
Proof.
  intros Hl Hlt updated q. unfold fireInterval, rotationTimerHandler.
  rewrite Hl, Hlt. unfold triggerRender. cbn.
  destruct (onRender s); reflexivity.
Qed.

Lemma step_exclusive (s : State num) (op : Op) :
  exclusive s -> exclusive (step s op).
Proof.
  unfold exclusive. intros H.
  destruct op; cbn [step]; try exact H.
  - right. unfold beginDrag. destruct (rotationTimer s) eqn:E; cbn; auto.
  - unfold updateDrag.
    match goal with |- context [if ?c then _ else _] => destruct c end.
    + exact H.
    + unfold triggerRender. cbn. destruct (onRender s); exact H.
  - left. unfold endDrag. cbn.
    repeat match goal with
           | |- context [if ?c then _ else _] => destruct c
           end; reflexivity.
  - left. unfold stopDrag. cbn. destruct (rotationTimer s); reflexivity.
  - unfold setRotationEuler, triggerRender. cbn.
    destruct (onRender s); exact H.
  - unfold rotateClockwise, nudge, triggerRender. cbn.
    destruct (onRender s); exact H.
  - unfold rotateCounterclockwise, nudge, triggerRender. cbn.
    destruct (onRender s); exact H.
  - unfold nudgePitchUp, nudge, triggerRender. cbn.
    destruct (onRender s); exact H.
  - unfold nudgePitchDown, nudge, triggerRender. cbn.
    destruct (onRender s); exact H.
  - unfold nudgeRoll, nudge, triggerRender. cbn.
    destruct (onRender s); exact H.
  - unfold fireInterval. destruct (lookupInterval id (intervals s)); [| exact H].
    unfold rotationTimerHandler.
    match goal with |- context [if ?c then _ else _] => destruct c end.
    + right. reflexivity.
    + unfold triggerRender. cbn. destruct (onRender s); exact H.
Qed.

Lemma run_exclusive (ops : list Op) (s : State num) :
  exclusive s -> exclusive (run s ops).
Proof.
  revert s. induction ops as [| op ops IH]; intros s H; [exact H |].
  cbn [run fold_left]. apply IH. apply step_exclusive. exact H.
Qed.

(** C6. After every sequence of public operations and timer firings that
    starts from a freshly constructed controller, [isDragging] and a
    non-null [rotationTimer] do not hold together.  [beginDrag] ends with
    [rotationTimer] null, the timer it named no longer live and
    [isDragging] set; [endDrag] always leaves [isDragging] false;
    [stopDrag] clears both. *)
Theorem drag_and_momentum_exclusive :
  forall (model : Quaternion num) (rect : ViewBounds num) (ops : list Op),
    exclusive (run (constructor model rect) ops)
    /\ (forall (s : State num) (p : Point num),
          rotationTimer (beginDrag s p) = None
          /\ isDragging (beginDrag s p) = true
          /\ forall t, rotationTimer s = Some t ->
               lookupInterval t (intervals (beginDrag s p)) = None)
    /\ (forall (s : State num) (v p : Point num),
          isDragging (endDrag s v p) = false)
    /\ (forall s : State num,
          isDragging (stopDrag s) = false
          /\ rotationTimer (stopDrag s) = None).
Proof.
  intros model rect ops. split; [| split; [| split]].
  - apply run_exclusive. left. reflexivity.
  - intros s p. unfold beginDrag.
    destruct (rotationTimer s) as [t |] eqn:E; cbn.
    + repeat split; try reflexivity.
      intros t' Ht. injection Ht as <-. apply lookupInterval_cleared.
    + repeat split; try assumption; try reflexivity. intros t Ht. discriminate.
  - intros s v p. unfold endDrag. cbn.
    repeat match goal with
           | |- context [if ?c then _ else _] => destruct c
           end; reflexivity.
  - intros s. unfold stopDrag. cbn.
    destruct (rotationTimer s) eqn:E; cbn; split; auto.
Qed.

End StateMachine.

(** ** The operations, branch by branch *)

Section Branches.
Context {num : Type} {N : Number num}.
Local Open Scope num_scope.

Lemma beginDrag_idle (s : State num) (p : Point num) :
  rotationTimer s = None ->
  beginDrag s p
  = set_startVector (ballLocationInCameraSpaceXYPlane s p)
      (set_isDragging true s).
Proof. intros H. unfold beginDrag. rewrite H. reflexivity. Qed.

Lemma updateDrag_skipped (s : State num) (p : Point num) :
  (Vector3_length (dragCross s p) <? #1 / #10000) = true ->
  updateDrag s p
  = set_axisOfRotation (dragCross s p)
      (set_angleOfRotation (dragAngle s p) s).
Proof.
  intros H. unfold updateDrag.
  match goal with
  | |- (if Vector3_length ?c <? _ then _ else _) = _ =>
      change c with (dragCross s p)
  end.
  rewrite H. reflexivity.
Qed.

Lemma updateDrag_applied (s : State num) (p : Point num) :
  (Vector3_length (dragCross s p) <? #1 / #10000) = false ->
  let q :=
    Quaternion_multiplyQuaternions (dragQuaternion s p)
      (quaternionTouchDown s) in
  updateDrag s p
  = triggerRender
      (set_model_quaternion q
         (set_quaternion q
            (set_axisOfRotation (Vector3_normalize (dragCross s p))
               (set_angleOfRotation (dragAngle s p) s)))).
Proof.
  intros H q. unfold updateDrag.
  match goal with
  | |- (if Vector3_length ?c <? _ then _ else _) = _ =>
      change c with (dragCross s p)
  end.
  rewrite H. reflexivity.
Qed.

Lemma endDrag_slow (s : State num) (v p : Point num) :
  (releaseSpeed v <? #1 / #10) = true ->
  endDrag s v p
  = set_quaternionTouchDown (quaternion s) (set_isDragging false s).
Proof.
  intros H. unfold endDrag. fold (releaseSpeed v). rewrite H. reflexivity.
Qed.

Lemma endDrag_momentum (s : State num) (v p : Point num) :
  (releaseSpeed v <? #1 / #10) = false ->
  (releaseAngle s v p <? #1 / #1000) = false ->
  let r := releaseAngle s v p in
  let id := nextIntervalId s in
  endDrag s v p
  = set_rotationTimer (Some id)
      (set_nextIntervalId (S id)
         (set_intervals (intervals s ++ [(id, mkAnglePackage r r)])
            (set_quaternionTouchDown (quaternion s)
               (set_isDragging false s)))).
Proof.
  intros Hv Hr r id. unfold endDrag. fold (releaseSpeed v). rewrite Hv.
  match goal with
  | |- (if ?a <? _ then _ else _) = _ =>
      change a with (releaseAngle s v p)
  end.
  rewrite Hr. reflexivity.
Qed.

End Branches.

(** ** Dragging, in exact arithmetic *)

Lemma updateDrag_skipped_R (s : State R) (p : Point R) :
  Vector3_length (dragCross s p) < 1 / 10000 ->
  updateDrag s p
  = set_axisOfRotation (dragCross s p)
      (set_angleOfRotation (dragAngle s p) s).
Proof.
  intros H. apply updateDrag_skipped. apply Rltb_true. exact H.
Qed.

Lemma updateDrag_applied_R (s : State R) (p : Point R) :
  1 / 10000 <= Vector3_length (dragCross s p) ->
  updateDrag s p
  = triggerRender
      (set_model_quaternion
         (Quaternion_multiplyQuaternions (dragQuaternion s p)
            (quaternionTouchDown s))
         (set_quaternion
            (Quaternion_multiplyQuaternions (dragQuaternion s p)
               (quaternionTouchDown s))
            (set_axisOfRotation (Vector3_normalize (dragCross s p))
               (set_angleOfRotation (dragAngle s p) s)))).
Proof.
  intros H. apply updateDrag_applied. apply Rltb_false. exact H.
Qed.

Lemma cross_self_length (v : Vector3 R) :
  Vector3_length (Vector3_crossVectors v v) = 0.
Proof.
  unfold Vector3_length, Vector3_crossVectors. real_ops. cbn [v_x v_y v_z].
  transitivity (sqrt 0); [f_equal; ring | apply sqrt_0].
Qed.

Lemma cross_zero_length (e : Vector3 R) :
  Vector3_length (Vector3_crossVectors (mkVector3 0 0 0) e) = 0.
Proof.
  unfold Vector3_length, Vector3_crossVectors. real_ops. cbn [v_x v_y v_z].
  transitivity (sqrt 0); [f_equal; ring | apply sqrt_0].
Qed.

Lemma triggerRender_frame (s : State R) :
  startVector (triggerRender s) = startVector s
  /\ quaternionTouchDown (triggerRender s) = quaternionTouchDown s
  /\ quaternion (triggerRender s) = quaternion s
  /\ model_quaternion (triggerRender s) = model_quaternion s
  /\ viewBounds (triggerRender s) = viewBounds s
  /\ ballCenter (triggerRender s) = ballCenter s
  /\ ballRadius (triggerRender s) = ballRadius s
  /\ axisOfRotation (triggerRender s) = axisOfRotation s
  /\ angleOfRotation (triggerRender s) = angleOfRotation s.
Proof. unfold triggerRender. destruct (onRender s); repeat split. Qed.

(** C10. When the stored start vector is the zero vector, the cross
    product that [updateDrag] computes has length 0 for every screen
    point, so the update is skipped: the model's orientation is unchanged
    and the render callback is not invoked.  The start vector is the zero
    vector after construction and after [stopDrag]. *)
Theorem updateDrag_with_zero_start_vector :
  (forall (s : State R) (p : Point R),
      startVector s = mkVector3 0 0 0 ->
      Vector3_length (dragCross s p) = 0
      /\ model_quaternion (updateDrag s p) = model_quaternion s
      /\ renderCalls (updateDrag s p) = renderCalls s)
  /\ (forall (model : Quaternion R) (rect : ViewBounds R),
        startVector (constructor model rect) = mkVector3 0 0 0)
  /\ (forall s : State R, startVector (stopDrag s) = mkVector3 0 0 0).
Proof.
  split; [| split].
  - intros s p H0.
    assert (Hlen : Vector3_length (dragCross s p) = 0).
    { unfold dragCross. rewrite H0. apply cross_zero_length. }
    split; [exact Hlen |].
    rewrite updateDrag_skipped_R by (rewrite Hlen; lra).
    split; reflexivity.
  - intros model rect. reflexivity.
  - intros s. unfold stopDrag. cbn.
    destruct (rotationTimer s); reflexivity.
Qed.

(** C4, amended. When the cross product of the stored start vector and
    the projected end vector is shorter than 1e-4, [updateDrag] applies no
    rotation: the current orientation, the drag-start snapshot and the
    model's orientation are unchanged, the render callback is not invoked,
    and every field of the controller other than [angleOfRotation] and
    [axisOfRotation] keeps its value. *)
Theorem degenerate_updateDrag_frame :
  forall (s : State R) (p : Point R),
    Vector3_length
      (Vector3_crossVectors (startVector s)
         (ballLocationInCameraSpaceXYPlane s p)) < 1 / 10000 ->
    let s' := updateDrag s p in
    quaternion s' = quaternion s
    /\ quaternionTouchDown s' = quaternionTouchDown s
    /\ model_quaternion s' = model_quaternion s
    /\ renderCalls s' = renderCalls s
    /\ startVector s' = startVector s
    /\ isDragging s' = isDragging s
    /\ rotationTimer s' = rotationTimer s
    /\ intervals s' = intervals s
    /\ nextIntervalId s' = nextIntervalId s
    /\ viewBounds s' = viewBounds s
    /\ ballCenter s' = ballCenter s
    /\ ballRadius s' = ballRadius s
    /\ kRotationRate s' = kRotationRate s
    /\ kRotationDecelerationRate s' = kRotationDecelerationRate s
    /\ onRender s' = onRender s.
Proof.
  intros s p H s'. unfold s'.
  assert (Hskip : updateDrag s p
                  = set_axisOfRotation (dragCross s p)
                      (set_angleOfRotation (dragAngle s p) s))
    by (apply updateDrag_skipped_R; exact H).
  rewrite Hskip. repeat split.
Qed.

(** ** The concrete scene, evaluated *)

Lemma ballXY_inside (s : State R) (p : Point R) :
  planeX s p * planeX s p + planeY s p * planeY s p <= 1 ->
  ballLocationInCameraSpaceXYPlane s p
  = mkVector3 (planeX s p) (planeY s p)
      (sqrt (1 - (planeX s p * planeX s p + planeY s p * planeY s p))).
Proof.
  intros H. unfold ballLocationInCameraSpaceXYPlane.
  fold (planeX s p) (planeY s p). real_ops.
  rewrite Rltb_false by exact H. reflexivity.
Qed.

Lemma plane_standard (s : State R) (p : Point R) :
  standardView s ->
  planeX s p = p_x p / 400 - 1 /\ planeY s p = 3 / 4 - p_y p / 400.
Proof.
  intros (Hv & Hc & Hr).
  unfold planeX, planeY, locationInBallCoordinates.
  rewrite Hv, Hc, Hr. real_ops. cbn [width height p_x p_y].
  rewrite Rmax_left by lra. split; field.
Qed.

Lemma ballXY_at_center (s : State R) (p : Point R) :
  standardView s -> p_x p = 400 -> p_y p = 300 ->
  ballLocationInCameraSpaceXYPlane s p = mkVector3 0 0 1.
Proof.
  intros Hs Hx Hy. destruct (plane_standard p Hs) as [HX HY].
  rewrite Hx in HX. rewrite Hy in HY.
  assert (HX0 : planeX s p = 0) by lra.
  assert (HY0 : planeY s p = 0) by lra.
  rewrite ballXY_inside by (rewrite HX0, HY0; lra).
  rewrite HX0, HY0. f_equal.
  replace (1 - (0 * 0 + 0 * 0)) with 1 by ring. apply sqrt_1.
Qed.

Lemma ballXY_at_rightEdge (s : State R) (p : Point R) :
  standardView s -> p_x p = 800 -> p_y p = 300 ->
  ballLocationInCameraSpaceXYPlane s p = mkVector3 1 0 0.
Proof.
  intros Hs Hx Hy. destruct (plane_standard p Hs) as [HX HY].
  rewrite Hx in HX. rewrite Hy in HY.
  assert (HX0 : planeX s p = 1) by lra.
  assert (HY0 : planeY s p = 0) by lra.
  rewrite ballXY_inside by (rewrite HX0, HY0; lra).
  rewrite HX0, HY0. f_equal.
  replace (1 - (1 * 1 + 0 * 0)) with 0 by ring. apply sqrt_0.
Qed.

Lemma clamp_unit (d : R) : -1 <= d <= 1 -> Rmax (-1) (Rmin 1 d) = d.
Proof.
  intros [Hl Hu]. rewrite Rmin_right by exact Hu. apply Rmax_right. exact Hl.
Qed.

Lemma triggerRender_off (s : State R) :
  onRender s = false -> triggerRender s = s.
Proof.
  intros H. unfold triggerRender. rewrite H. reflexivity.
Qed.

(** After [beginDrag] at the center of the fresh controller. *)
Lemma afterBegin_eq :
  afterBegin = set_startVector (mkVector3 0 0 1) (set_isDragging true fresh).
Proof.
  unfold afterBegin. rewrite beginDrag_idle by reflexivity.
  rewrite (@ballXY_at_center fresh center); try reflexivity.
  repeat split.
Qed.

Lemma afterBegin_view : standardView afterBegin.
Proof. rewrite afterBegin_eq. repeat split. Qed.

Lemma afterBegin_cross : dragCross afterBegin rightEdge = mkVector3 0 1 0.
Proof.
  unfold dragCross.
  rewrite (@ballXY_at_rightEdge afterBegin rightEdge afterBegin_view)
    by reflexivity.
  rewrite afterBegin_eq. unfold Vector3_crossVectors. real_ops.
  cbn [v_x v_y v_z startVector set_startVector]. f_equal; ring.
Qed.

Lemma afterBegin_angle : dragAngle afterBegin rightEdge = PI / 2.
Proof.
  unfold dragAngle.
  rewrite (@ballXY_at_rightEdge afterBegin rightEdge afterBegin_view)
    by reflexivity.
  rewrite afterBegin_eq. unfold Vector3_dot. real_ops.
  cbn [v_x v_y v_z startVector set_startVector].
  replace (0 * 1 + 0 * 0 + 1 * 0) with 0 by ring.
  rewrite clamp_unit by lra. apply acos_0.
Qed.

Lemma normalize_unit_y : Vector3_normalize (mkVector3 0 1 0) = mkVector3 0 1 0.
Proof.
  unfold Vector3_normalize, Vector3_divideScalar, Vector3_multiplyScalar,
    Vector3_length.
  real_ops. cbn [v_x v_y v_z].
  replace (0 * 0 + 1 * 1 + 0 * 0) with 1 by ring. rewrite sqrt_1.
  unfold Rtruthy. destruct (Req_dec_T 1 0) as [H | H]; [lra |].
  f_equal; field.
Qed.

Lemma afterBegin_length : Vector3_length (dragCross afterBegin rightEdge) = 1.
Proof.
  rewrite afterBegin_cross. unfold Vector3_length. real_ops.
  cbn [v_x v_y v_z].
  replace (0 * 0 + 1 * 1 + 0 * 0) with 1 by ring. apply sqrt_1.
Qed.


(** The quarter turn about the vertical axis that the drag applies. *)
Lemma afterBegin_quaternion :
  Quaternion_multiplyQuaternions (dragQuaternion afterBegin rightEdge)
    (quaternionTouchDown afterBegin)
  = mkQuaternion 0 (sin (PI / 4)) 0 (cos (PI / 4)).
Proof.
  unfold dragQuaternion.
  rewrite afterBegin_cross, afterBegin_angle, normalize_unit_y.
  rewrite afterBegin_eq.
  unfold Quaternion_multiplyQuaternions, Quaternion_setFromAxisAngle.
  cbn [q_x q_y q_z q_w v_x v_y v_z quaternionTouchDown set_startVector
       set_isDragging fresh constructor identityQuaternion].
  real_ops.
  replace (PI / 2 / 2) with (PI / 4) by field.
  f_equal; ring.
Qed.

Lemma afterDrag_eq :
  afterDrag
  = set_model_quaternion (mkQuaternion 0 (sin (PI / 4)) 0 (cos (PI / 4)))
      (set_quaternion (mkQuaternion 0 (sin (PI / 4)) 0 (cos (PI / 4)))
         (set_axisOfRotation (mkVector3 0 1 0)
            (set_angleOfRotation (PI / 2) afterBegin))).
Proof.
  unfold afterDrag.
  rewrite updateDrag_applied_R by (rewrite afterBegin_length; lra).
  rewrite afterBegin_quaternion, afterBegin_cross, afterBegin_angle,
    normalize_unit_y.
  apply triggerRender_off. rewrite afterBegin_eq. reflexivity.
Qed.

Lemma afterDrag_view : standardView afterDrag.
Proof. rewrite afterDrag_eq, afterBegin_eq. repeat split. Qed.

Lemma afterDrag_start : startVector afterDrag = mkVector3 0 0 1.
Proof. rewrite afterDrag_eq, afterBegin_eq. reflexivity. Qed.

Lemma afterDrag_center :
  ballLocationInCameraSpaceXYPlane afterDrag center = mkVector3 0 0 1.
Proof. apply ballXY_at_center; [apply afterDrag_view | |]; reflexivity. Qed.

Lemma afterDrag_cross : dragCross afterDrag center = mkVector3 0 0 0.
Proof.
  unfold dragCross. rewrite afterDrag_center, afterDrag_start.
  unfold Vector3_crossVectors. real_ops. cbn [v_x v_y v_z]. f_equal; ring.
Qed.

Lemma afterDrag_angle : dragAngle afterDrag center = 0.
Proof.
  unfold dragAngle. rewrite afterDrag_center, afterDrag_start.
  unfold Vector3_dot. real_ops. cbn [v_x v_y v_z].
  replace (0 * 0 + 0 * 0 + 1 * 1) with 1 by ring.
  rewrite clamp_unit by lra. apply acos_1.
Qed.

Lemma afterDrag_degenerate :
  Vector3_length (dragCross afterDrag center) = 0.
Proof.
  unfold dragCross. rewrite afterDrag_center, afterDrag_start.
  apply cross_self_length.
Qed.

Lemma afterReturn_eq :
  afterReturn
  = set_axisOfRotation (mkVector3 0 0 0) (set_angleOfRotation 0 afterDrag).
Proof.
  unfold afterReturn.
  rewrite updateDrag_skipped_R by (rewrite afterDrag_degenerate; lra).
  rewrite afterDrag_cross, afterDrag_angle. reflexivity.
Qed.

Lemma quarter_turn_sin : 0 < sin (PI / 4).
Proof. apply sin_gt_0; pose proof PI_RGT_0; lra. Qed.

(** C4, the claim as stated fails: the update from [afterDrag] to the
    center is degenerate (the cross product has length 0), yet it
    overwrites [axisOfRotation] (from the unit axis (0, 1, 0) to the zero
    vector) and [angleOfRotation] (from PI / 2 to 0). *)
Lemma degenerate_updateDrag_overwrites_axis :
  Vector3_length
    (Vector3_crossVectors (startVector afterDrag)
       (ballLocationInCameraSpaceXYPlane afterDrag center)) < 1 / 10000
  /\ axisOfRotation afterDrag = mkVector3 0 1 0
  /\ angleOfRotation afterDrag = PI / 2
  /\ axisOfRotation (updateDrag afterDrag center) = mkVector3 0 0 0
  /\ angleOfRotation (updateDrag afterDrag center) = 0
  /\ updateDrag afterDrag center <> afterDrag.
Proof.
  assert (Hlen : Vector3_length (dragCross afterDrag center) < 1 / 10000)
    by (rewrite afterDrag_degenerate; lra).
  assert (Hax : axisOfRotation afterDrag = mkVector3 0 1 0)
    by (rewrite afterDrag_eq; reflexivity).
  assert (Hret : updateDrag afterDrag center = afterReturn) by reflexivity.
  split; [exact Hlen |]. split; [exact Hax |].
  split; [rewrite afterDrag_eq; reflexivity |].
  rewrite Hret, afterReturn_eq.
  split; [reflexivity |]. split; [reflexivity |].
  intros Heq. apply (f_equal (@axisOfRotation R)) in Heq.
  rewrite Hax in Heq. cbn [axisOfRotation set_axisOfRotation] in Heq.
  apply (f_equal (@v_y R)) in Heq. cbn [v_y] in Heq. lra.
Qed.

Lemma degenerate_updateDrag_frame_witness :
  Vector3_length
    (Vector3_crossVectors (startVector afterDrag)
       (ballLocationInCameraSpaceXYPlane afterDrag center)) < 1 / 10000
  /\ model_quaternion (updateDrag afterDrag center)
     = model_quaternion afterDrag.
Proof.
  assert (Hlen : Vector3_length
                   (Vector3_crossVectors (startVector afterDrag)
                      (ballLocationInCameraSpaceXYPlane afterDrag center))
                 < 1 / 10000).
  { apply (Rle_lt_trans _ 0); [right; exact afterDrag_degenerate | lra]. }
  split; [exact Hlen |].
  exact (proj1 (proj2 (proj2
           (@degenerate_updateDrag_frame afterDrag center Hlen)))).
Defined.

(** C8, amended. An [updateDrag] whose screen point maps to the stored
    start vector is skipped: the model keeps the orientation it had before
    the call, the current orientation is unchanged and nothing is
    rendered.  Directly after [beginDrag], a point that maps to the same
    ball vector as the point of [beginDrag] therefore leaves the model at
    its orientation at drag start. *)
Theorem updateDrag_at_start_vector :
  (forall (s : State R) (p : Point R),
      ballLocationInCameraSpaceXYPlane s p = startVector s ->
      model_quaternion (updateDrag s p) = model_quaternion s
      /\ quaternion (updateDrag s p) = quaternion s
      /\ renderCalls (updateDrag s p) = renderCalls s)
  /\ (forall (s : State R) (p0 p : Point R),
        ballLocationInCameraSpaceXYPlane s p
        = ballLocationInCameraSpaceXYPlane s p0 ->
        model_quaternion (updateDrag (beginDrag s p0) p)
        = model_quaternion s).
Proof.
  assert (Hskip : forall (s : State R) (p : Point R),
             ballLocationInCameraSpaceXYPlane s p = startVector s ->
             Vector3_length (dragCross s p) < 1 / 10000).
  { intros s p H. unfold dragCross. rewrite H, cross_self_length. lra. }
  split.
  - intros s p H. rewrite updateDrag_skipped_R by (apply Hskip; exact H).
    repeat split.
  - intros s p0 p H.
    assert (Hb : ballLocationInCameraSpaceXYPlane (beginDrag s p0) p
                 = startVector (beginDrag s p0)).
    { unfold beginDrag. destruct (rotationTimer s); exact H. }
    rewrite updateDrag_skipped_R by (apply Hskip; exact Hb).
    unfold beginDrag. destruct (rotationTimer s); reflexivity.
Qed.

(** C8, the claim as stated fails after an intervening update: the drag
    begins at the center with the model at the identity, an update to the
    right edge turns the model by a quarter turn, and the update back to
    the center (the same ball vector as the point of [beginDrag]) leaves
    the model at the quarter turn, not at the orientation at drag
    start. *)
Lemma updateDrag_back_to_start_keeps_rotation :
  ballLocationInCameraSpaceXYPlane afterDrag center
  = ballLocationInCameraSpaceXYPlane fresh center
  /\ model_quaternion fresh = mkQuaternion 0 0 0 1
  /\ quaternionTouchDown (updateDrag afterDrag center) = mkQuaternion 0 0 0 1
  /\ model_quaternion (updateDrag afterDrag center)
     = mkQuaternion 0 (sin (PI / 4)) 0 (cos (PI / 4))
  /\ 0 < sin (PI / 4).
Proof.
  assert (Hret : updateDrag afterDrag center = afterReturn) by reflexivity.
  split.
  { rewrite afterDrag_center. symmetry.
    apply ballXY_at_center; try reflexivity. repeat split. }
  split; [reflexivity |].
  rewrite Hret, afterReturn_eq, afterDrag_eq, afterBegin_eq.
  split; [reflexivity |]. split; [reflexivity |]. exact quarter_turn_sin.
Qed.

(** C5. For every non-degenerate [updateDrag] (cross product of length
    at least 1e-4), the new current orientation is the quaternion built
    from the normalized cross product of the start and end vectors and the
    angle [acos (clamp (dot start end) (-1) 1)], multiplied on the left
    onto the drag-start snapshot; the same value is written to the model.
    A second [updateDrag] with the same screen point leaves the same
    orientation: it reproduces the state of the first, rendering once
    more. *)
Theorem updateDrag_composes_from_drag_start :
  forall (s : State R) (p : Point R),
    1 / 10000
    <= Vector3_length
         (Vector3_crossVectors (startVector s)
            (ballLocationInCameraSpaceXYPlane s p)) ->
    let endVector := ballLocationInCameraSpaceXYPlane s p in
    let axis :=
      Vector3_normalize (Vector3_crossVectors (startVector s) endVector) in
    let angle :=
      acos (Rmax (-1) (Rmin 1 (Vector3_dot (startVector s) endVector))) in
    let q :=
      Quaternion_multiplyQuaternions
        (Quaternion_setFromAxisAngle axis angle) (quaternionTouchDown s) in
    quaternion (updateDrag s p) = q
    /\ model_quaternion (updateDrag s p) = q
    /\ quaternion (updateDrag (updateDrag s p) p) = q
    /\ model_quaternion (updateDrag (updateDrag s p) p) = q
    /\ updateDrag (updateDrag s p) p = triggerRender (updateDrag s p).
Proof.
  intros s p H endVector axis angle q.
  assert (H1 : updateDrag s p
               = triggerRender
                   (set_model_quaternion q
                      (set_quaternion q
                         (set_axisOfRotation axis
                            (set_angleOfRotation angle s)))))
    by (apply updateDrag_applied_R; exact H).
  assert (Hq1 : quaternion (updateDrag s p) = q
                /\ model_quaternion (updateDrag s p) = q).
  { rewrite H1. unfold triggerRender. cbn.
    destruct (onRender s); split; reflexivity. }
  assert (H2 : updateDrag (updateDrag s p) p = triggerRender (updateDrag s p)).
  { rewrite H1.
    set (X := set_model_quaternion q
                (set_quaternion q
                   (set_axisOfRotation axis (set_angleOfRotation angle s)))).
    assert (HX : exists n, triggerRender X = set_renderCalls n X).
    { unfold triggerRender. destruct (onRender X).
      - eexists. reflexivity.
      - exists (renderCalls X). reflexivity. }
    destruct HX as [n HX]. rewrite HX.
    rewrite updateDrag_applied_R by exact H. reflexivity. }
  destruct Hq1 as [Hq Hm].
  repeat split; try assumption.
  - rewrite H2. destruct (triggerRender_frame (updateDrag s p))
      as (_ & _ & Hf & _). rewrite Hf. exact Hq.
  - rewrite H2. destruct (triggerRender_frame (updateDrag s p))
      as (_ & _ & _ & Hf & _). rewrite Hf. exact Hm.
Qed.

Lemma updateDrag_composes_from_drag_start_witness :
  1 / 10000
  <= Vector3_length
       (Vector3_crossVectors (startVector afterBegin)
          (ballLocationInCameraSpaceXYPlane afterBegin rightEdge))
  /\ updateDrag (updateDrag afterBegin rightEdge) rightEdge
     = triggerRender (updateDrag afterBegin rightEdge).
Proof.
  assert (Hlen : 1 / 10000
                 <= Vector3_length
                      (Vector3_crossVectors (startVector afterBegin)
                         (ballLocationInCameraSpaceXYPlane afterBegin
                            rightEdge))).
  { apply (Rle_trans _ 1); [lra | right; symmetry; exact afterBegin_length]. }
  split; [exact Hlen |].
  exact (proj2 (proj2 (proj2 (proj2
           (@updateDrag_composes_from_drag_start afterBegin rightEdge
              Hlen))))).
Defined.

(** ** Momentum *)

Lemma triggerRender_timers (s : State R) :
  rotationTimer (triggerRender s) = rotationTimer s
  /\ intervals (triggerRender s) = intervals s
  /\ kRotationDecelerationRate (triggerRender s) = kRotationDecelerationRate s.
Proof. unfold triggerRender. destruct (onRender s); repeat split. Qed.

Lemma fire_running_R (s : State R) (id : nat) (r a : R) :
  lookupInterval id (intervals s) = Some (mkAnglePackage r a) ->
  0 <= a ->
  let updated := a - kRotationDecelerationRate s * r in
  let q :=
    Quaternion_multiplyQuaternions
      (Quaternion_setFromAxisAngle (axisOfRotation s) updated)
      (quaternionTouchDown s) in
  fireInterval s id
  = set_intervals
      (storeInterval id (mkAnglePackage r updated) (intervals s))
      (triggerRender
         (set_quaternionTouchDown q
            (set_model_quaternion q (set_quaternion q s)))).
Proof.
  intros Hl Ha updated q.
  exact (@fire_running R _ s id (mkAnglePackage r a) Hl
           (@Rltb_false a 0 Ha)).
Qed.

Lemma fire_terminal_R (s : State R) (id : nat) (r a : R) :
  lookupInterval id (intervals s) = Some (mkAnglePackage r a) ->
  a < 0 ->
  rotationTimer s = Some id ->
  rotationTimer (fireInterval s id) = None
  /\ lookupInterval id (intervals (fireInterval s id)) = None.
Proof.
  intros Hl Ha Ht.
  rewrite (@fire_terminal R _ s id (mkAnglePackage r a) Hl)
    by (apply Rltb_true; exact Ha).
  rewrite Ht. cbn.
  split; [reflexivity |].
  apply lookupInterval_stored_none. apply lookupInterval_cleared.
Qed.

(** The running part of the schedule: while the remaining angle has not
    gone negative, each firing subtracts [rate * r]. *)
Lemma ticks_schedule (s : State R) (id : nat) (r : R) :
  0 < r ->
  rotationTimer s = Some id ->
  lookupInterval id (intervals s) = Some (mkAnglePackage r r) ->
  kRotationDecelerationRate s = 1 / 60 ->
  forall k : nat, (k <= 61)%nat ->
    rotationTimer (ticks s id k) = Some id
    /\ lookupInterval id (intervals (ticks s id k))
       = Some (mkAnglePackage r (r - INR k * (1 / 60 * r)))
    /\ kRotationDecelerationRate (ticks s id k) = 1 / 60.
Proof.
  intros Hr Ht Hl Hk k. induction k as [| k IH]; intros Hle.
  - cbn [ticks run repeat fold_left INR]. repeat split; try assumption.
    rewrite Hl. do 2 f_equal. ring.
  - destruct IH as (IHt & IHl & IHk); [lia |].
    rewrite ticks_succ.
    assert (Hk60 : INR k <= 60).
    { replace 60 with (INR 60) by (cbn; lra). apply le_INR. lia. }
    assert (Hpos : 0 <= r - INR k * (1 / 60 * r)) by nra.
    rewrite (@fire_running_R (ticks s id k) id _ _ IHl Hpos).
    cbn [rotationTimer intervals kRotationDecelerationRate set_intervals].
    match goal with
    | |- context [triggerRender ?x] =>
        destruct (triggerRender_timers x) as (Et & _ & Ek)
    end.
    rewrite Et, Ek.
    cbn [rotationTimer kRotationDecelerationRate set_quaternionTouchDown
         set_model_quaternion set_quaternion].
    repeat split; try assumption.
    rewrite (@lookupInterval_stored R id _ _ _ IHl).
    rewrite IHk, S_INR. do 2 f_equal. ring.
Qed.

Lemma flick_speed : releaseSpeed flick = 12000.
Proof.
  unfold releaseSpeed, flick. cbn [p_x p_y]. real_ops.
  replace (12000 * 12000 + 0 * 0) with (12000 * 12000) by ring.
  apply sqrt_square. lra.
Qed.

Lemma flick_angle (s : State R) :
  standardView s -> kRotationRate s = 1 / 30 ->
  releaseAngle s flick center = PI / 2.
Proof.
  intros Hs Hk. unfold releaseAngle. cbv zeta.
  rewrite (@ballXY_at_center s center Hs) by reflexivity.
  rewrite (@ballXY_at_rightEdge s _ Hs).
  - unfold Vector3_dot. real_ops. cbn [v_x v_y v_z].
    replace (0 * 1 + 0 * 0 + 1 * 0) with 0 by ring.
    rewrite clamp_unit by lra. apply acos_0.
  - rewrite Hk. unfold flick, center. cbn [p_x p_y]. real_ops. field.
  - rewrite Hk. unfold flick, center. cbn [p_x p_y]. real_ops. field.
Qed.

Lemma endDrag_flick (s : State R) :
  standardView s -> kRotationRate s = 1 / 30 ->
  endDrag s flick center
  = set_rotationTimer (Some (nextIntervalId s))
      (set_nextIntervalId (S (nextIntervalId s))
         (set_intervals
            (intervals s
             ++ [(nextIntervalId s, mkAnglePackage (PI / 2) (PI / 2))])
            (set_quaternionTouchDown (quaternion s)
               (set_isDragging false s)))).
Proof.
  intros Hs Hk.
  rewrite <- (flick_angle Hs Hk).
  apply endDrag_momentum.
  - apply Rltb_false. rewrite flick_speed. real_ops. lra.
  - apply Rltb_false. rewrite (flick_angle Hs Hk). real_ops.
    pose proof PI2_1. lra.
Qed.

Lemma released_eq :
  released
  = set_rotationTimer (Some 1%nat)
      (set_nextIntervalId 2%nat
         (set_intervals [(1%nat, mkAnglePackage (PI / 2) (PI / 2))]
            (set_quaternionTouchDown (mkQuaternion 0 0 0 1)
               (set_isDragging false afterBegin)))).
Proof.
  unfold released. rewrite endDrag_flick.
  - rewrite afterBegin_eq. reflexivity.
  - apply afterBegin_view.
  - rewrite afterBegin_eq. reflexivity.
Qed.

(** The release leaves exactly the state [momentumStarted (PI / 2)]. *)
Lemma released_is_momentumStarted : released = momentumStarted (PI / 2).
Proof.
  rewrite released_eq, afterBegin_eq. unfold momentumStarted.
  rewrite (@ballXY_at_center fresh center); try reflexivity.
  repeat split.
Qed.

Lemma released_view : standardView released.
Proof. rewrite released_eq, afterBegin_eq. repeat split. Qed.

Lemma releasedTwice_eq :
  releasedTwice
  = set_rotationTimer (Some 2%nat)
      (set_nextIntervalId 3%nat
         (set_intervals
            [(1%nat, mkAnglePackage (PI / 2) (PI / 2));
             (2%nat, mkAnglePackage (PI / 2) (PI / 2))]
            (set_quaternionTouchDown (mkQuaternion 0 0 0 1)
               (set_isDragging false released)))).
Proof.
  unfold releasedTwice. rewrite endDrag_flick.
  - rewrite released_eq, afterBegin_eq. reflexivity.
  - apply released_view.
  - rewrite released_eq, afterBegin_eq. reflexivity.
Qed.

Lemma released_timer :
  rotationTimer released = Some 1%nat
  /\ lookupInterval 1 (intervals released)
     = Some (mkAnglePackage (PI / 2) (PI / 2))
  /\ kRotationDecelerationRate released = 1 / 60.
Proof. rewrite released_eq, afterBegin_eq. repeat split. Qed.

(** C2, amended. From a momentum state with
    [radiansBegin = radians = r > 0], every one of the first 60 firings
    of the timer is non-terminal and subtracts the constant
    [kRotationDecelerationRate * r = r / 60]: after [k <= 60] firings the
    timer is still stored and live and the remaining angle is
    [r - k * (r / 60)], so exactly 60 firings do not terminate the
    animation.  After fewer than 60 firings the remaining angle is
    positive, never below 0.  The handler tests the angle before it
    subtracts, so a later firing clears the timer and discards the
    momentum state: it is cleared once 62 firings have been attempted.
    (Whether the clearing firing is the 61st or the 62nd depends on the
    sign of the remainder after the 60th, which is 0 in exact arithmetic
    and a rounding error in doubles; the statement takes no side.) *)
Theorem momentum_decay_schedule :
  forall (s : State R) (id : nat) (r : R),
    0 < r ->
    rotationTimer s = Some id ->
    lookupInterval id (intervals s) = Some (mkAnglePackage r r) ->
    kRotationDecelerationRate s = 1 / 60 ->
    (forall k : nat, (k <= 60)%nat ->
       rotationTimer (ticks s id k) = Some id
       /\ lookupInterval id (intervals (ticks s id k))
          = Some (mkAnglePackage r (r - INR k * (r / 60))))
    /\ kRotationDecelerationRate s * r = r / 60
    /\ (forall k : nat, (k < 60)%nat -> 0 < r - INR k * (r / 60))
    /\ rotationTimer (ticks s id 62) = None
    /\ lookupInterval id (intervals (ticks s id 62)) = None.
Proof.
  intros s id r Hr Ht Hl Hk.
  pose proof (@ticks_schedule s id r Hr Ht Hl Hk) as Hs.
  assert (H60 : INR 60 = 60) by (cbn; lra).
  assert (H61 : INR 61 = 61) by (rewrite S_INR, H60; lra).
  split; [| split; [| split]].
  - intros k Hle. destruct (Hs k ltac:(lia)) as (Et & El & _).
    split; [exact Et |]. rewrite El. do 2 f_equal. field.
  - rewrite Hk. field.
  - intros k Hlt.
    assert (INR k <= 59).
    { assert (H59 : INR 59 = 59) by (rewrite S_INR in H60; lra).
      rewrite <- H59. apply le_INR. lia. }
    nra.
  - destruct (Hs 61%nat (le_n 61)) as (Et & El & _).
    rewrite ticks_succ.
    apply (@fire_terminal_R (ticks s id 61) id r _ El).
    + rewrite H61. lra.
    + exact Et.
Qed.

Lemma momentum_decay_schedule_witness :
  0 < PI / 2
  /\ rotationTimer released = Some 1%nat
  /\ rotationTimer (ticks released 1 62) = None.
Proof.
  destruct released_timer as (Ht & Hl & Hk).
  split; [exact PI2_RGT_0 |]. split; [exact Ht |].
  exact (proj1 (proj2 (proj2 (proj2
           (@momentum_decay_schedule released 1%nat (PI / 2)
              PI2_RGT_0 Ht Hl Hk))))).
Defined.

(** C2, the claim as stated fails: after the flick release the momentum
    angle is PI / 2; after exactly 60 firings of the timer the remaining
    angle is 0, not below 0, and the timer is still stored and live. *)
Lemma sixty_ticks_leave_momentum_running :
  rotationTimer released = Some 1%nat
  /\ lookupInterval 1 (intervals released)
     = Some (mkAnglePackage (PI / 2) (PI / 2))
  /\ rotationTimer (ticks released 1 60) = Some 1%nat
  /\ lookupInterval 1 (intervals (ticks released 1 60))
     = Some (mkAnglePackage (PI / 2) 0).
Proof.
  destruct released_timer as (Ht & Hl & Hk).
  split; [exact Ht |]. split; [exact Hl |].
  destruct (@ticks_schedule released 1%nat (PI / 2) PI2_RGT_0 Ht Hl Hk
              60%nat ltac:(lia)) as (Et & El & _).
  split; [exact Et |]. rewrite El. do 2 f_equal.
  replace (INR 60) with 60 by (cbn; lra). field.
Qed.

(** C7, evaluated at the failing input: [endDrag] reported twice after
    one [beginDrag].  Two interval timers are live and only the second is
    stored in [rotationTimer]; [stopDrag] and [beginDrag] cancel the
    stored one and leave the first running. *)
Lemma repeated_endDrag_leaves_two_timers :
  map fst (intervals (releasedTwice : State R)) = [1; 2]%nat
  /\ rotationTimer (releasedTwice : State R) = Some 2%nat
  /\ map fst (intervals (stopDrag (releasedTwice : State R))) = [1]%nat
  /\ rotationTimer (stopDrag (releasedTwice : State R)) = None
  /\ map fst (intervals (beginDrag (releasedTwice : State R) center))
     = [1]%nat
  /\ isDragging (beginDrag (releasedTwice : State R) center) = true.
Proof.
  rewrite releasedTwice_eq. repeat split.
Qed.

(** ** Unit norm *)

Lemma first_tick_cos : 0 < cos (59 * PI / 240) < 1.
Proof.
  pose proof PI_RGT_0 as Hpi. split.
  - apply cos_gt_0; lra.
  - rewrite <- cos_0. apply cos_decreasing_1; lra.
Qed.

(** C3, evaluated at the failing input: a press released at once with a
    fast flick, so that no [updateDrag] has ever normalized
    [axisOfRotation], which is still the zero vector of the constructor.
    The model starts at the identity.  The first firing of the momentum
    timer builds its rotation from the zero axis and writes the
    quaternion (0, 0, 0, cos (59 PI / 240)), whose length is below 1, to
    the model, to the current orientation and to the snapshot. *)
Lemma momentum_tick_with_zero_axis_shrinks_quaternion :
  axisOfRotation released = mkVector3 0 0 0
  /\ model_quaternion released = mkQuaternion 0 0 0 1
  /\ lookupInterval 1 (intervals released)
     = Some (mkAnglePackage (PI / 2) (PI / 2))
  /\ model_quaternion (fireInterval released 1)
     = mkQuaternion 0 0 0 (cos (59 * PI / 240))
  /\ quaternion (fireInterval released 1)
     = mkQuaternion 0 0 0 (cos (59 * PI / 240))
  /\ quaternionTouchDown (fireInterval released 1)
     = mkQuaternion 0 0 0 (cos (59 * PI / 240))
  /\ Quaternion_length (model_quaternion (fireInterval released 1)) < 1.
Proof.
  destruct released_timer as (Ht & Hl & Hk).
  assert (Hq : Quaternion_multiplyQuaternions
                 (Quaternion_setFromAxisAngle (axisOfRotation released)
                    (PI / 2 - kRotationDecelerationRate released * (PI / 2)))
                 (quaternionTouchDown released)
               = mkQuaternion 0 0 0 (cos (59 * PI / 240))).
  { rewrite Hk. rewrite released_eq, afterBegin_eq.
    unfold Quaternion_multiplyQuaternions, Quaternion_setFromAxisAngle.
    cbn [q_x q_y q_z q_w v_x v_y v_z quaternionTouchDown axisOfRotation
         set_rotationTimer set_nextIntervalId set_intervals
         set_quaternionTouchDown set_isDragging set_startVector fresh
         constructor].
    real_ops.
    replace ((PI / 2 - 1 / 60 * (PI / 2)) / 2) with (59 * PI / 240) by field.
    f_equal; ring. }
  assert (Hfire : fireInterval released 1
                  = set_intervals
                      (storeInterval 1
                         (mkAnglePackage (PI / 2)
                            (PI / 2
                             - kRotationDecelerationRate released * (PI / 2)))
                         (intervals released))
                      (triggerRender
                         (set_quaternionTouchDown
                            (mkQuaternion 0 0 0 (cos (59 * PI / 240)))
                            (set_model_quaternion
                               (mkQuaternion 0 0 0 (cos (59 * PI / 240)))
                               (set_quaternion
                                  (mkQuaternion 0 0 0 (cos (59 * PI / 240)))
                                  released))))).
  { rewrite <- Hq. apply fire_running_R; [exact Hl |].
    pose proof PI_RGT_0. lra. }
  split; [rewrite released_eq, afterBegin_eq; reflexivity |].
  split; [rewrite released_eq, afterBegin_eq; reflexivity |].
  split; [exact Hl |].
  rewrite Hfire.
  cbn [model_quaternion quaternion quaternionTouchDown set_intervals].
  match goal with
  | |- context [triggerRender ?x] =>
      destruct (triggerRender_frame x) as (_ & Etd & Equ & Em & _)
  end.
  rewrite Etd, Equ, Em.
  split; [reflexivity |]. split; [reflexivity |]. split; [reflexivity |].
  cbn [model_quaternion set_quaternionTouchDown set_model_quaternion].
  unfold Quaternion_length. cbn [q_x q_y q_z q_w]. real_ops.
  replace (0 * 0 + 0 * 0 + 0 * 0
           + cos (59 * PI / 240) * cos (59 * PI / 240))
    with (cos (59 * PI / 240) * cos (59 * PI / 240)) by ring.
  destruct first_tick_cos as [Hc0 Hc1].
  rewrite sqrt_square by lra. exact Hc1.
Qed.

(** ** Euler angles *)

Lemma half_angle_facts (a : R) :
  sin a = 2 * sin (a / 2) * cos (a / 2)
  /\ cos a = cos (a / 2) * cos (a / 2) - sin (a / 2) * sin (a / 2)
  /\ sin (a / 2) * sin (a / 2) + cos (a / 2) * cos (a / 2) = 1.
Proof.
  split; [| split].
  - replace a with (2 * (a / 2)) at 1 by field. apply sin_2a.
  - replace a with (2 * (a / 2)) at 1 by field. apply cos_2a.
  - pose proof (sin2_cos2 (a / 2)) as H. unfold Rsqr in H. exact H.
Qed.





Lemma euler_y_of_matrix (m : Matrix4 R) :
  e_y (Euler_setFromRotationMatrix m)
  = asin (Rmax (- (1)) (Rmin 1 (te8 m))).
Proof.
  unfold Euler_setFromRotationMatrix, clamp. real_ops.
  destruct (Rltb (Rabs (te8 m)) (9999999 / 10000000)); reflexivity.
Qed.


Lemma setRotationEuler_model (s : State R) (x y z : R) :
  let q :=
    Quaternion_setFromEuler
      (mkEuler (degToRad x) (degToRad y) (degToRad z)) in
  model_quaternion (setRotationEuler s x y z) = q
  /\ quaternion (setRotationEuler s x y z) = q
  /\ quaternionTouchDown (setRotationEuler s x y z) = q.
Proof.
  intros q. unfold setRotationEuler.
  match goal with
  | |- context [triggerRender ?x] =>
      destruct (triggerRender_frame x) as (_ & Etd & Equ & Em & _)
  end.
  rewrite Etd, Equ, Em. repeat split.
Qed.







(** * The same runs on IEEE-754 doubles *)

(** The definitions above, instantiated with binary64 arithmetic and run
    on concrete inputs.  The trigonometric functions stay abstract: the
    decay schedule and the ball projection do not depend on them. *)

Section Doubles.
Context {T : Binary64.Trigonometry}.

(** The projections of a point outside the ball have length exactly 1;
    inside the ball the length can be off by one unit in the last
    place. *)
Example double_projection_lengths :
  Vector3_length
    (ballLocationInCameraSpaceXYPlane (fresh : State spec_float)
       (mkPoint (ofZ 900) (ofZ 700)))
  = ofZ 1
  /\ Vector3_length
       (ballLocationInCameraSpaceXZPlane (fresh : State spec_float)
          (mkPoint (ofZ 900) (ofZ 700)))
     = ofZ 1
  /\ Vector3_length
       (ballLocationInCameraSpaceXYPlane (fresh : State spec_float)
          (mkPoint (ofZ 600) (ofZ 300)))
     = S754_finite false 9007199254740991 (-53).
Proof. repeat split; vm_compute; reflexivity. Qed.

(** Starting angle [Math.PI / 2]: after 60 firings the remaining angle
    is about 1.0e-15, above 0; the timer is still stored after 61
    firings and is cleared by the 62nd. *)
Example double_schedule_half_pi :
  let r : spec_float := ndiv Math_PI (ofZ 2) in
  option_map (@radians spec_float)
    (lookupInterval 1 (intervals (ticks (momentumStarted r) 1 60)))
  = Some (S754_finite false 5101733952880640 (-102))
  /\ rotationTimer (ticks (momentumStarted r) 1 60) = Some 1%nat
  /\ rotationTimer (ticks (momentumStarted r) 1 61) = Some 1%nat
  /\ rotationTimer (ticks (momentumStarted r) 1 62) = None.
Proof. repeat split; vm_compute; reflexivity. Qed.

(** Starting angle 1: rounding leaves the remaining angle about -1.4e-15
    after 60 firings; the timer is still stored then, is cleared by the
    61st firing and stays cleared at the 62nd. *)
Example double_schedule_one :
  let r : spec_float := ofZ 1 in
  option_map (@radians spec_float)
    (lookupInterval 1 (intervals (ticks (momentumStarted r) 1 60)))
  = Some (S754_finite true 7072058789855232 (-102))
  /\ rotationTimer (ticks (momentumStarted r) 1 60) = Some 1%nat
  /\ rotationTimer (ticks (momentumStarted r) 1 61) = None
  /\ rotationTimer (ticks (momentumStarted r) 1 62) = None.
Proof. repeat split; vm_compute; reflexivity. Qed.

End Doubles.

(** * Further properties of the controller *)

(** ** The state machine, for any arithmetic *)

Section Machine.
Context {num : Type} {N : Number num}.

Lemma triggerRender_rest (s : State num) :
  rotationTimer (triggerRender s) = rotationTimer s
  /\ intervals (triggerRender s) = intervals s
  /\ isDragging (triggerRender s) = isDragging s
  /\ quaternion (triggerRender s) = quaternion s
  /\ model_quaternion (triggerRender s) = model_quaternion s
  /\ quaternionTouchDown (triggerRender s) = quaternionTouchDown s.
Proof. unfold triggerRender. destruct (onRender s); repeat split. Qed.

(** Which fields each operation can touch. *)
Ltac split_branches :=
  repeat match goal with
         | |- context [if ?c then _ else _] => destruct c
         end.

Lemma step_keeps_sync (s : State num) (op : Op) :
  quaternion s = model_quaternion s ->
  quaternion (step s op) = model_quaternion (step s op).
Proof.
  intros H. destruct op; cbn [step]; try exact H.
  - unfold beginDrag. destruct (rotationTimer s); exact H.
  - unfold updateDrag.
    match goal with |- context [if ?c then _ else _] => destruct c end.
    + exact H.
    + unfold triggerRender. cbn. destruct (onRender s); reflexivity.
  - unfold endDrag. cbn. split_branches; exact H.
  - unfold stopDrag. cbn. destruct (rotationTimer s); exact H.
  - unfold setRotationEuler, triggerRender. cbn.
    destruct (onRender s); reflexivity.
  - unfold rotateClockwise, nudge, triggerRender. cbn.
    destruct (onRender s); reflexivity.
  - unfold rotateCounterclockwise, nudge, triggerRender. cbn.
    destruct (onRender s); reflexivity.
  - unfold nudgePitchUp, nudge, triggerRender. cbn.
    destruct (onRender s); reflexivity.
  - unfold nudgePitchDown, nudge, triggerRender. cbn.
    destruct (onRender s); reflexivity.
  - unfold nudgeRoll, nudge, triggerRender. cbn.
    destruct (onRender s); reflexivity.
  - unfold fireInterval. destruct (lookupInterval id (intervals s)); [| exact H].
    unfold rotationTimerHandler.
    match goal with |- context [if ?c then _ else _] => destruct c end.
    + unfold clearInterval. destruct (rotationTimer s); exact H.
    + unfold triggerRender. cbn. destruct (onRender s); reflexivity.
Qed.

(** X1. The controller's current orientation and the model's orientation
    are equal after every sequence of operations and timer firings on a
    freshly constructed controller: every path that assigns one assigns
    the other. *)
Theorem current_orientation_tracks_model :
  forall (model : Quaternion num) (rect : ViewBounds num) (ops : list Op),
    quaternion (run (constructor model rect) ops)
    = model_quaternion (run (constructor model rect) ops).
Proof.
  intros model rect ops.
  assert (Hgen : forall s : State num,
             quaternion s = model_quaternion s ->
             quaternion (run s ops) = model_quaternion (run s ops)).
  { induction ops as [| op ops IH]; intros s H; [exact H |].
    cbn [run fold_left]. apply IH. apply step_keeps_sync. exact H. }
  apply Hgen. reflexivity.
Qed.

End Machine.

(** ** The timer table, for any arithmetic *)

Section Timers.
Context {num : Type} {N : Number num}.

Lemma lookupInterval_appended (id : nat) (p : AnglePackage num)
  (l : list (nat * AnglePackage num)) :
  exists q, lookupInterval id (l ++ [(id, p)]) = Some q.
Proof.
  induction l as [| [i q] l IH]; cbn [app lookupInterval].
  - rewrite Nat.eqb_refl. eexists. reflexivity.
  - destruct (Nat.eqb i id); [eexists; reflexivity | exact IH].
Qed.

Lemma lookupInterval_store_keys (t id : nat) (p : AnglePackage num)
  (l : list (nat * AnglePackage num)) :
  lookupInterval t l <> None ->
  lookupInterval t (storeInterval id p l) <> None.
Proof.
  induction l as [| [i q] l IH]; [intros H; exact H |].
  cbn [lookupInterval storeInterval map fst].
  destruct (Nat.eqb i id) eqn:E.
  - apply Nat.eqb_eq in E. subst i. cbn [lookupInterval].
    destruct (Nat.eqb id t); [discriminate | exact IH].
  - cbn [lookupInterval]. destruct (Nat.eqb i t); [discriminate | exact IH].
Qed.

Lemma storedTimerLive_intro (s : State num) :
  (forall id, rotationTimer s = Some id ->
              lookupInterval id (intervals s) <> None) ->
  storedTimerLive s.
Proof.
  intros H. unfold storedTimerLive, isLive.
  destruct (rotationTimer s) as [id |]; [| exact I].
  specialize (H id eq_refl).
  destruct (lookupInterval id (intervals s)); [reflexivity | contradiction].
Qed.

Lemma storedTimerLive_elim (s : State num) (id : nat) :
  storedTimerLive s -> rotationTimer s = Some id ->
  lookupInterval id (intervals s) <> None.
Proof.
  unfold storedTimerLive, isLive. intros H E. rewrite E in H.
  destruct (lookupInterval id (intervals s)); discriminate.
Qed.

Lemma step_keeps_storedTimerLive (s : State num) (op : Op) :
  storedTimerLive s -> storedTimerLive (step s op).
Proof.
  intros H. pose proof (fun id => @storedTimerLive_elim s id H) as He.
  destruct op; cbn [step]; try exact H.
  - unfold beginDrag, storedTimerLive.
    destruct (rotationTimer s) eqn:E; cbn; rewrite ?E; exact I.
  - unfold updateDrag.
    match goal with |- context [if ?c then _ else _] => destruct c end.
    + exact H.
    + unfold triggerRender. cbn. destruct (onRender s); exact H.
  - unfold endDrag. cbn.
    match goal with |- context [if ?c then _ else _] => destruct c end;
      [exact H |].
    match goal with |- context [if ?c then _ else _] => destruct c end;
      [exact H |].
    unfold storedTimerLive, isLive. cbn.
    match goal with
    | |- context [lookupInterval ?i (?l ++ [(?i, ?p)])] =>
        destruct (lookupInterval_appended i p l) as [q Hq]; rewrite Hq
    end.
    reflexivity.
  - unfold stopDrag, storedTimerLive. cbn.
    destruct (rotationTimer s) eqn:E; cbn; rewrite ?E; exact I.
  - unfold setRotationEuler, triggerRender. cbn.
    destruct (onRender s); exact H.
  - unfold rotateClockwise, nudge, triggerRender. cbn.
    destruct (onRender s); exact H.
  - unfold rotateCounterclockwise, nudge, triggerRender. cbn.
    destruct (onRender s); exact H.
  - unfold nudgePitchUp, nudge, triggerRender. cbn.
    destruct (onRender s); exact H.
  - unfold nudgePitchDown, nudge, triggerRender. cbn.
    destruct (onRender s); exact H.
  - unfold nudgeRoll, nudge, triggerRender. cbn.
    destruct (onRender s); exact H.
  - unfold fireInterval.
    destruct (lookupInterval id (intervals s)) as [p |]; [| exact H].
    unfold rotationTimerHandler.
    match goal with |- context [if ?c then _ else _] => destruct c end.
    + unfold storedTimerLive. cbn. exact I.
    + apply storedTimerLive_intro. intros t Ht.
      unfold triggerRender in *. cbn in *.
      destruct (onRender s); cbn in *;
        apply lookupInterval_store_keys; apply He; exact Ht.
Qed.

(** X2. After every sequence of operations and timer firings on a freshly
    constructed controller, the handle stored in [rotationTimer], if any,
    names a timer that is live in the host: the controller never keeps a
    stale handle. *)
Theorem stored_timer_is_live :
  forall (model : Quaternion num) (rect : ViewBounds num) (ops : list Op),
    storedTimerLive (run (constructor model rect) ops).
Proof.
  intros model rect ops.
  assert (Hgen : forall s : State num,
             storedTimerLive s -> storedTimerLive (run s ops)).
  { induction ops as [| op ops IH]; intros s H; [exact H |].
    cbn [run fold_left]. apply IH. apply step_keeps_storedTimerLive.
    exact H. }
  apply Hgen. exact I.
Qed.

End Timers.

(** ** Sequences in which [endDrag] only ends a drag in progress *)

Section Sequenced.
Context {num : Type} {N : Number num}.

Lemma step_keeps_onlyStoredTimer (s : State num) (op : Op) :
  match op with EndDrag _ _ => isDragging s = true | _ => True end ->
  exclusive s -> onlyStoredTimer s -> onlyStoredTimer (step s op).
Proof.
  intros Hop Hex H. unfold onlyStoredTimer in *.
  destruct op; cbn [step]; try exact H.
  - unfold beginDrag. destruct (rotationTimer s) as [t |] eqn:E; cbn.
    + destruct H as [p Hp]. rewrite Hp. cbn. rewrite Nat.eqb_refl.
      reflexivity.
    + rewrite E. exact H.
  - unfold updateDrag.
    match goal with |- context [if ?c then _ else _] => destruct c end.
    + exact H.
    + unfold triggerRender. cbn. destruct (onRender s); exact H.
  - destruct Hex as [Hex | Hex]; [congruence |].
    rewrite Hex in H. unfold endDrag. cbn.
    match goal with |- context [if ?c then _ else _] => destruct c end;
      [cbn; rewrite Hex; exact H |].
    match goal with |- context [if ?c then _ else _] => destruct c end;
      [cbn; rewrite Hex; exact H |].
    cbn. rewrite H. eexists. reflexivity.
  - unfold stopDrag. cbn. destruct (rotationTimer s) as [t |] eqn:E; cbn.
    + destruct H as [p Hp]. rewrite Hp. cbn. rewrite Nat.eqb_refl.
      reflexivity.
    + rewrite E. exact H.
  - unfold setRotationEuler, triggerRender. cbn.
    destruct (onRender s); exact H.
  - unfold rotateClockwise, nudge, triggerRender. cbn.
    destruct (onRender s); exact H.
  - unfold rotateCounterclockwise, nudge, triggerRender. cbn.
    destruct (onRender s); exact H.
  - unfold nudgePitchUp, nudge, triggerRender. cbn.
    destruct (onRender s); exact H.
  - unfold nudgePitchDown, nudge, triggerRender. cbn.
    destruct (onRender s); exact H.
  - unfold nudgeRoll, nudge, triggerRender. cbn.
    destruct (onRender s); exact H.
  - unfold fireInterval.
    destruct (rotationTimer s) as [t |] eqn:E.
    + destruct H as [p Hp]. rewrite Hp. cbn [lookupInterval].
      destruct (Nat.eqb t id) eqn:Et; [| rewrite E; eexists; exact Hp].
      apply Nat.eqb_eq in Et. subst id.
      unfold rotationTimerHandler.
      match goal with |- context [if ?c then _ else _] => destruct c end.
      * rewrite E. cbn. rewrite Hp. cbn. rewrite Nat.eqb_refl. reflexivity.
      * unfold triggerRender. cbn.
        destruct (onRender s); cbn; rewrite E, Hp; cbn;
          rewrite Nat.eqb_refl; eexists; reflexivity.
    + rewrite H. cbn. rewrite E. exact H.
Qed.

Lemma run_keeps_onlyStoredTimer (ops : list Op) (s : State num) :
  wellSequenced s ops -> exclusive s -> onlyStoredTimer s ->
  onlyStoredTimer (run s ops).
Proof.
  revert s. induction ops as [| op ops IH]; intros s Hw Hex H; [exact H |].
  destruct Hw as [Hop Hw]. cbn [run fold_left]. apply IH.
  - exact Hw.
  - apply step_exclusive. exact Hex.
  - apply step_keeps_onlyStoredTimer; assumption.
Qed.

(** X3. If every [endDrag] of a sequence is called while a drag is in
    progress (after a [beginDrag], with no [endDrag] or [stopDrag] in
    between), then at every point at most one interval timer is live, and
    a live timer is the one stored in [rotationTimer]. *)
Theorem single_timer_when_well_sequenced :
  forall (model : Quaternion num) (rect : ViewBounds num) (ops : list Op),
    wellSequenced (constructor model rect) ops ->
    (length (intervals (run (constructor model rect) ops)) <= 1)%nat
    /\ forall id : nat,
         isLive id (run (constructor model rect) ops) = true ->
         rotationTimer (run (constructor model rect) ops) = Some id.
Proof.
  intros model rect ops Hw.
  assert (H : onlyStoredTimer (run (constructor model rect) ops)).
  { apply run_keeps_onlyStoredTimer; [exact Hw | left | ]; reflexivity. }
  unfold onlyStoredTimer, isLive in *.
  destruct (rotationTimer (run (constructor model rect) ops)) as [t |].
  - destruct H as [p Hp]. rewrite Hp. split; [cbn; lia |].
    intros id. cbn. destruct (Nat.eqb t id) eqn:E; [| discriminate].
    apply Nat.eqb_eq in E. subst. reflexivity.
  - rewrite H. split; [cbn; lia |]. intros id. cbn. discriminate.
Qed.

End Sequenced.

Lemma single_timer_when_well_sequenced_witness :
  wellSequenced (fresh : State R) [BeginDrag center; EndDrag flick center]
  /\ (length (intervals (released : State R)) <= 1)%nat.
Proof.
  assert (Hw : wellSequenced (fresh : State R)
                 [BeginDrag center; EndDrag flick center]).
  { cbn [wellSequenced]. repeat split. }
  split; [exact Hw |].
  exact (proj1 (@single_timer_when_well_sequenced R _ identityQuaternion
                  (mkViewBounds 800 600)
                  [BeginDrag center; EndDrag flick center] Hw)).
Defined.

(** ** Starting, ending and stopping a drag, for any arithmetic *)

Section DragBoundaries.
Context {num : Type} {N : Number num}.
Local Open Scope num_scope.

(** X4. [stopDrag] is idempotent; after it [isCurrentlyDragging] is
    false, the start vector is the zero vector and the timer that was
    stored is no longer live. *)
Theorem stopDrag_idempotent_and_cancels :
  forall s : State num,
    stopDrag (stopDrag s) = stopDrag s
    /\ isCurrentlyDragging (stopDrag s) = false
    /\ startVector (stopDrag s) = mkVector3 #0 #0 #0
    /\ forall t : nat, rotationTimer s = Some t ->
         isLive t (stopDrag s) = false.
Proof.
  intros s. unfold stopDrag, isCurrentlyDragging, isLive. cbn.
  destruct (rotationTimer s) as [t |] eqn:E; cbn; rewrite ?E; cbn.
  - repeat split. intros t' Ht. injection Ht as <-.
    rewrite lookupInterval_cleared. reflexivity.
  - repeat split. intros t Ht. discriminate.
Qed.

(** X5. [beginDrag], [endDrag], [stopDrag] and [reshape] never rotate the
    model and never invoke the render callback: the model's orientation,
    the controller's current orientation and the number of render calls
    are the same before and after, whatever the arguments. *)
Theorem drag_boundaries_leave_the_model :
  forall (s : State num) (p v : Point num) (bounds : ViewBounds num),
    let unchanged (s' : State num) :=
      model_quaternion s' = model_quaternion s
      /\ quaternion s' = quaternion s
      /\ renderCalls s' = renderCalls s in
    unchanged (beginDrag s p)
    /\ unchanged (endDrag s v p)
    /\ unchanged (stopDrag s)
    /\ unchanged (reshape s bounds).
Proof.
  intros s p v bounds unchanged. unfold unchanged.
  split; [| split; [| split]].
  - unfold beginDrag. destruct (rotationTimer s); repeat split.
  - unfold endDrag. cbn.
    repeat match goal with
           | |- context [if ?c then _ else _] => destruct c
           end; repeat split.
  - unfold stopDrag. cbn. destruct (rotationTimer s); repeat split.
  - repeat split.
Qed.

End DragBoundaries.

(** ** Screen coordinates and the two projections, in exact arithmetic *)

(** X6. For positive view bounds [w x h], [locationInBallCoordinates]
    sends the screen point [(x, y)] to
    [((2 x - w) / max w h, (h - 2 y) / max w h)]: both axes are divided by
    the larger dimension and the vertical axis is flipped.  The center of
    the view goes to the origin, and a point inside the view has both
    coordinates in [-1, 1]. *)
Theorem locationInBallCoordinates_closed_form :
  forall (s : State R) (p : Point R),
    0 < width (viewBounds s) -> 0 < height (viewBounds s) ->
    let w := width (viewBounds s) in
    let h := height (viewBounds s) in
    let l := locationInBallCoordinates s p in
    p_x l = (2 * p_x p - w) / Rmax w h
    /\ p_y l = (h - 2 * p_y p) / Rmax w h
    /\ locationInBallCoordinates s (mkPoint (w / 2) (h / 2)) = mkPoint 0 0
    /\ (0 <= p_x p <= w -> -1 <= p_x l <= 1)
    /\ (0 <= p_y p <= h -> -1 <= p_y l <= 1).
Proof.
  intros s p Hw Hh w h l.
  change (0 < w) in Hw. change (0 < h) in Hh.
  assert (HM : 0 < Rmax w h).
  { apply Rlt_le_trans with w; [exact Hw | apply Rmax_l]. }
  assert (Hwm : w <= Rmax w h) by apply Rmax_l.
  assert (Hhm : h <= Rmax w h) by apply Rmax_r.
  assert (Ex : p_x l = (2 * p_x p - w) / Rmax w h).
  { unfold l, locationInBallCoordinates. cbn [p_x]. real_ops.
    fold w h. field. split; lra. }
  assert (Ey : p_y l = (h - 2 * p_y p) / Rmax w h).
  { unfold l, locationInBallCoordinates. cbn [p_y]. real_ops.
    fold w h. field. split; lra. }
  split; [exact Ex |]. split; [exact Ey |].
  split; [| split].
  - unfold locationInBallCoordinates. cbn [p_x p_y]. real_ops. fold w h.
    f_equal; field; split; lra.
  - intros [H0 H1]. rewrite Ex.
    assert (E : (2 * p_x p - w) / Rmax w h * Rmax w h = 2 * p_x p - w)
      by (field; lra).
    set (X := (2 * p_x p - w) / Rmax w h) in *. split; nra.
  - intros [H0 H1]. rewrite Ey.
    assert (E : (h - 2 * p_y p) / Rmax w h * Rmax w h = h - 2 * p_y p)
      by (field; lra).
    set (Y := (h - 2 * p_y p) / Rmax w h) in *. split; nra.
Qed.

Lemma locationInBallCoordinates_closed_form_witness :
  0 < width (viewBounds (fresh : State R))
  /\ 0 < height (viewBounds (fresh : State R))
  /\ locationInBallCoordinates (fresh : State R) (mkPoint (800 / 2) (600 / 2))
     = mkPoint 0 0.
Proof.
  assert (Hw : 0 < width (viewBounds (fresh : State R))).
  { unfold fresh. cbn [viewBounds constructor width]. real_ops. lra. }
  assert (Hh : 0 < height (viewBounds (fresh : State R))).
  { unfold fresh. cbn [viewBounds constructor height]. real_ops. lra. }
  split; [exact Hw |]. split; [exact Hh |].
  exact (proj1 (proj2 (proj2
           (@locationInBallCoordinates_closed_form fresh center Hw Hh)))).
Defined.

(** X7. The XZ projection is the XY projection with the second and third
    components exchanged and the depth negated; the XY projection lies on
    the front hemisphere (third component at least 0) and the XZ projection
    on the lower one (second component at most 0). *)
Theorem projection_variants_related :
  forall (s : State R) (p : Point R),
    let xy := ballLocationInCameraSpaceXYPlane s p in
    let xz := ballLocationInCameraSpaceXZPlane s p in
    v_x xz = v_x xy
    /\ v_z xz = v_y xy
    /\ v_y xz = - v_z xy
    /\ 0 <= v_z xy
    /\ v_y xz <= 0.
Proof.
  intros s p xy xz.
  unfold xy, xz, ballLocationInCameraSpaceXYPlane,
    ballLocationInCameraSpaceXZPlane.
  fold (planeX s p) (planeY s p). real_ops. unfold Rltb.
  destruct (Rlt_dec 1 (planeX s p * planeX s p + planeY s p * planeY s p));
    cbn [v_x v_y v_z].
  - repeat split; lra.
  - pose proof (sqrt_pos
                  (1 - (planeX s p * planeX s p + planeY s p * planeY s p))).
    repeat split; lra.
Qed.

(** ** Angles and releases, in exact arithmetic *)

Lemma endDrag_faint (s : State R) (v p : Point R) :
  1 / 10 <= releaseSpeed v ->
  releaseAngle s v p < 1 / 1000 ->
  endDrag s v p
  = set_quaternionTouchDown (quaternion s) (set_isDragging false s).
Proof.
  intros Hv Hr. unfold endDrag. fold (releaseSpeed v).
  assert (Ev : nlt (releaseSpeed v) (ndiv (ofZ 1) (ofZ 10)) = false)
    by (apply Rltb_false; exact Hv).
  rewrite Ev.
  match goal with
  | |- (if nlt ?a _ then _ else _) = _ =>
      change a with (releaseAngle s v p)
  end.
  assert (Er : nlt (releaseAngle s v p) (ndiv (ofZ 1) (ofZ 1000)) = true)
    by (apply Rltb_true; exact Hr).
  rewrite Er. reflexivity.
Qed.

(** X8. The angle that [updateDrag] stores is always between 0 and PI,
    and [endDrag] either starts no timer or starts exactly one, whose
    package holds twice the same angle, between 0.001 and PI. *)
Theorem drag_and_release_angles_bounded :
  forall (s : State R) (v p : Point R),
    0 <= angleOfRotation (updateDrag s p) <= PI
    /\ (intervals (endDrag s v p) = intervals s
        \/ exists r : R,
             1 / 1000 <= r <= PI
             /\ intervals (endDrag s v p)
                = intervals s ++ [(nextIntervalId s, mkAnglePackage r r)]
             /\ rotationTimer (endDrag s v p) = Some (nextIntervalId s)).
Proof.
  intros s v p. split.
  - assert (E : angleOfRotation (updateDrag s p) = dragAngle s p).
    { destruct (Rlt_dec (Vector3_length (dragCross s p)) (1 / 10000))
        as [H | H].
      - rewrite updateDrag_skipped_R by exact H. reflexivity.
      - rewrite updateDrag_applied_R by lra.
        destruct (triggerRender_frame
                    (set_model_quaternion
                       (Quaternion_multiplyQuaternions (dragQuaternion s p)
                          (quaternionTouchDown s))
                       (set_quaternion
                          (Quaternion_multiplyQuaternions
                             (dragQuaternion s p) (quaternionTouchDown s))
                          (set_axisOfRotation
                             (Vector3_normalize (dragCross s p))
                             (set_angleOfRotation (dragAngle s p) s)))))
          as (_ & _ & _ & _ & _ & _ & _ & _ & Ea).
        rewrite Ea. reflexivity. }
    rewrite E. unfold dragAngle. real_ops. apply acos_bound.
  - destruct (Rlt_dec (releaseSpeed v) (1 / 10)) as [Hv | Hv].
    { left. rewrite endDrag_slow by (apply Rltb_true; exact Hv).
      reflexivity. }
    destruct (Rlt_dec (releaseAngle s v p) (1 / 1000)) as [Hr | Hr].
    { left. rewrite endDrag_faint by lra. reflexivity. }
    right. exists (releaseAngle s v p). split.
    + split; [lra |]. unfold releaseAngle. real_ops. apply acos_bound.
    + rewrite endDrag_momentum by (apply Rltb_false; real_ops; lra).
      split; reflexivity.
Qed.

(** X9. A release whose speed [sqrt (vx^2 + vy^2)] is below 0.1, in
    particular a release with zero velocity, starts no momentum: no timer
    is created, [rotationTimer] keeps its value, the drag ends and the
    current orientation becomes the snapshot. *)
Theorem slow_release_starts_no_momentum :
  forall (s : State R) (v p : Point R),
    sqrt (p_x v * p_x v + p_y v * p_y v) < 1 / 10 ->
    endDrag s v p
    = set_quaternionTouchDown (quaternion s) (set_isDragging false s)
    /\ intervals (endDrag s v p) = intervals s
    /\ rotationTimer (endDrag s v p) = rotationTimer s
    /\ isDragging (endDrag s v p) = false
    /\ quaternionTouchDown (endDrag s v p) = quaternion s.
Proof.
  intros s v p H.
  assert (E : endDrag s v p
              = set_quaternionTouchDown (quaternion s)
                  (set_isDragging false s)).
  { apply endDrag_slow. apply Rltb_true. exact H. }
  rewrite E. repeat split.
Qed.

Lemma slow_release_starts_no_momentum_witness :
  sqrt (0 * 0 + 0 * 0) < 1 / 10
  /\ rotationTimer (endDrag (afterDrag : State R) (mkPoint 0 0) center)
     = rotationTimer (afterDrag : State R).
Proof.
  assert (H : sqrt (0 * 0 + 0 * 0) < 1 / 10).
  { replace (0 * 0 + 0 * 0) with 0 by ring. rewrite sqrt_0. lra. }
  split; [exact H |].
  exact (proj1 (proj2 (proj2
           (@slow_release_starts_no_momentum afterDrag (mkPoint 0 0) center
              H)))).
Defined.

(** ** Unit norm, where the code keeps it *)

Lemma Quaternion_length_mul (a b : Quaternion R) :
  Quaternion_length (Quaternion_multiplyQuaternions a b)
  = Quaternion_length a * Quaternion_length b.
Proof.
  unfold Quaternion_length, Quaternion_multiplyQuaternions.
  cbn [q_x q_y q_z q_w]. real_ops.
  rewrite <- sqrt_mult_alt by nra. f_equal. ring.
Qed.

Lemma Vector3_length_unit (v : Vector3 R) :
  Vector3_length v = 1 ->
  v_x v * v_x v + v_y v * v_y v + v_z v * v_z v = 1.
Proof.
  unfold Vector3_length. real_ops. intros H.
  apply (proj1 (sqrt_unit_sum _)) in H. exact H.
Qed.

Lemma setFromAxisAngle_unit (axis : Vector3 R) (angle : R) :
  Vector3_length axis = 1 ->
  Quaternion_length (Quaternion_setFromAxisAngle axis angle) = 1.
Proof.
  intros H. apply Vector3_length_unit in H.
  unfold Quaternion_length, Quaternion_setFromAxisAngle.
  cbn [q_x q_y q_z q_w]. real_ops. apply sqrt_unit_sum.
  pose proof (sin2_cos2 (angle / 2)) as Hsc. unfold Rsqr in Hsc.
  set (sn := sin (angle / 2)) in *. set (cs := cos (angle / 2)) in *.
  transitivity
    (sn * sn * (v_x axis * v_x axis + v_y axis * v_y axis
                + v_z axis * v_z axis) + cs * cs); [ring |].
  rewrite H. lra.
Qed.

Lemma normalize_unit (v : Vector3 R) :
  0 < Vector3_length v -> Vector3_length (Vector3_normalize v) = 1.
Proof.
  intros Hpos.
  assert (Hsq : Vector3_length v * Vector3_length v
                = v_x v * v_x v + v_y v * v_y v + v_z v * v_z v).
  { unfold Vector3_length in *. real_ops. apply sqrt_sqrt.
    destruct (Rle_dec 0 (v_x v * v_x v + v_y v * v_y v + v_z v * v_z v))
      as [H | H]; [exact H |].
    rewrite sqrt_neg_0 in Hpos by lra. lra. }
  unfold Vector3_normalize, Vector3_divideScalar, Vector3_multiplyScalar.
  real_ops. unfold Rtruthy.
  destruct (Req_dec_T (Vector3_length v) 0) as [E | E]; [lra |].
  set (l := Vector3_length v) in *.
  unfold Vector3_length. cbn [v_x v_y v_z]. real_ops.
  apply sqrt_unit_sum.
  transitivity ((v_x v * v_x v + v_y v * v_y v + v_z v * v_z v) / (l * l));
    [field; exact E |].
  rewrite <- Hsq. field. exact E.
Qed.

(** X10. An accepted [updateDrag] (cross product of length at least
    1e-4) on a unit-norm drag-start snapshot leaves a unit-norm
    orientation in the model and in the controller, and leaves
    [axisOfRotation] normalized. *)
Theorem accepted_updateDrag_keeps_unit_norm :
  forall (s : State R) (p : Point R),
    1 / 10000
    <= Vector3_length
         (Vector3_crossVectors (startVector s)
            (ballLocationInCameraSpaceXYPlane s p)) ->
    Quaternion_length (quaternionTouchDown s) = 1 ->
    Quaternion_length (model_quaternion (updateDrag s p)) = 1
    /\ Quaternion_length (quaternion (updateDrag s p)) = 1
    /\ Vector3_length (axisOfRotation (updateDrag s p)) = 1.
Proof.
  intros s p Hlen Hunit.
  assert (Hn : Vector3_length (Vector3_normalize (dragCross s p)) = 1).
  { apply normalize_unit. unfold dragCross. lra. }
  rewrite updateDrag_applied_R by exact Hlen.
  match goal with
  | |- context [triggerRender ?x] =>
      destruct (triggerRender_frame x)
        as (_ & _ & Equ & Em & _ & _ & _ & Eax & _)
  end.
  rewrite Equ, Em, Eax.
  cbn [model_quaternion quaternion axisOfRotation set_model_quaternion
       set_quaternion set_axisOfRotation set_angleOfRotation].
  rewrite Quaternion_length_mul, Hunit. unfold dragQuaternion.
  rewrite (@setFromAxisAngle_unit _ (dragAngle s p) Hn). repeat split; lra.
Qed.

Lemma identity_unit : Quaternion_length (mkQuaternion 0 0 0 1) = 1.
Proof.
  unfold Quaternion_length. cbn [q_x q_y q_z q_w]. real_ops.
  apply sqrt_unit_sum. ring.
Qed.

Lemma accepted_updateDrag_keeps_unit_norm_witness :
  Quaternion_length (quaternionTouchDown (afterBegin : State R)) = 1
  /\ Quaternion_length (model_quaternion (afterDrag : State R)) = 1.
Proof.
  assert (Hlen : 1 / 10000
                 <= Vector3_length
                      (Vector3_crossVectors (startVector afterBegin)
                         (ballLocationInCameraSpaceXYPlane afterBegin
                            rightEdge))).
  { apply (Rle_trans _ 1); [lra | right; symmetry; exact afterBegin_length]. }
  assert (Hu : Quaternion_length (quaternionTouchDown (afterBegin : State R))
               = 1).
  { rewrite afterBegin_eq. exact identity_unit. }
  split; [exact Hu |].
  exact (proj1 (@accepted_updateDrag_keeps_unit_norm afterBegin rightEdge
                  Hlen Hu)).
Defined.

Lemma rotated_unit (axis : Vector3 R) (angle : R) (q : Quaternion R) :
  Vector3_length axis = 1 -> Quaternion_length q = 1 ->
  Quaternion_length
    (Quaternion_multiplyQuaternions
       (Quaternion_setFromAxisAngle axis angle) q) = 1.
Proof.
  intros Ha Hq.
  rewrite Quaternion_length_mul, Hq, (@setFromAxisAngle_unit axis angle Ha).
  lra.
Qed.

Lemma basis_axes_unit :
  Vector3_length (mkVector3 0 1 0) = 1
  /\ Vector3_length (mkVector3 1 0 0) = 1
  /\ Vector3_length (mkVector3 0 0 1) = 1.
Proof.
  unfold Vector3_length. cbn [v_x v_y v_z]. real_ops.
  repeat split; apply sqrt_unit_sum; ring.
Qed.

Lemma setFromEuler_unit (e : Euler R) :
  Quaternion_length (Quaternion_setFromEuler e) = 1.
Proof.
  destruct (half_angle_facts (e_x e)) as (_ & _ & H1).
  destruct (half_angle_facts (e_y e)) as (_ & _ & H2).
  destruct (half_angle_facts (e_z e)) as (_ & _ & H3).
  unfold Quaternion_length, Quaternion_setFromEuler.
  cbn [q_x q_y q_z q_w]. real_ops. apply sqrt_unit_sum.
  set (s1 := sin (e_x e / 2)) in *. set (c1 := cos (e_x e / 2)) in *.
  set (s2 := sin (e_y e / 2)) in *. set (c2 := cos (e_y e / 2)) in *.
  set (s3 := sin (e_z e / 2)) in *. set (c3 := cos (e_z e / 2)) in *.
  clearbody s1 c1 s2 c2 s3 c3. nsatz.
Qed.

(** X11. Whatever the angles and whatever the state, [setRotationEuler]
    leaves a unit-norm orientation in the model, in the current
    orientation and in the drag-start snapshot. *)
Theorem setRotationEuler_gives_unit_norm :
  forall (s : State R) (x y z : R),
    Quaternion_length (model_quaternion (setRotationEuler s x y z)) = 1
    /\ Quaternion_length (quaternion (setRotationEuler s x y z)) = 1
    /\ Quaternion_length (quaternionTouchDown (setRotationEuler s x y z)) = 1.
Proof.
  intros s x y z.
  destruct (setRotationEuler_model s x y z) as (Em & Equ & Etd).
  cbv zeta in Em, Equ, Etd. rewrite Em, Equ, Etd.
  repeat split; apply setFromEuler_unit.
Qed.

Lemma nudge_keeps_unit (s : State R) (axis : Vector3 R) (angle : R) :
  Vector3_length axis = 1 ->
  unitOrientations s -> unitOrientations (nudge s axis angle).
Proof.
  intros Ha (Hm & Hq & Htd & Hax). unfold unitOrientations, nudge.
  match goal with
  | |- context [triggerRender ?x] =>
      destruct (triggerRender_frame x)
        as (_ & Etd & Equ & Em & _ & _ & _ & Eax & _)
  end.
  rewrite Etd, Equ, Em, Eax.
  cbn [model_quaternion quaternion quaternionTouchDown axisOfRotation
       set_model_quaternion set_quaternion set_quaternionTouchDown].
  rewrite (@rotated_unit axis angle (model_quaternion s) Ha Hm). repeat split; assumption.
Qed.

Lemma step_keeps_unit (s : State R) (op : Op) :
  match op with
  | UpdateDrag p => 1 / 10000 <= Vector3_length (dragCross s p)
  | _ => True
  end ->
  unitOrientations s -> unitOrientations (step s op).
Proof.
  intros Hop Hu. pose proof Hu as (Hm & Hq & Htd & Hax).
  destruct basis_axes_unit as (Hy & Hx & Hz).
  destruct op; cbn [step]; try exact Hu.
  - unfold beginDrag. destruct (rotationTimer s); exact Hu.
  - rewrite updateDrag_applied_R by exact Hop.
    assert (Hn : Vector3_length
                   (Vector3_normalize (dragCross s screenLocation)) = 1).
    { apply normalize_unit. lra. }
    unfold unitOrientations.
    match goal with
    | |- context [triggerRender ?x] =>
        destruct (triggerRender_frame x)
          as (_ & Etd & Equ & Em & _ & _ & _ & Eax & _)
    end.
    rewrite Etd, Equ, Em, Eax.
    cbn [model_quaternion quaternion quaternionTouchDown axisOfRotation
         set_model_quaternion set_quaternion set_axisOfRotation
         set_angleOfRotation].
    unfold dragQuaternion.
    rewrite (@rotated_unit _ (dragAngle s screenLocation)
               (quaternionTouchDown s) Hn Htd).
    repeat split; assumption.
  - unfold unitOrientations, endDrag. cbn.
    repeat match goal with
           | |- context [if ?c then _ else _] => destruct c
           end; cbn; repeat split; assumption.
  - unfold stopDrag. cbn. destruct (rotationTimer s); exact Hu.
  - destruct (setRotationEuler_model s x y z) as (Em & Equ & Etd).
    cbv zeta in Em, Equ, Etd. unfold unitOrientations.
    rewrite Em, Equ, Etd, setFromEuler_unit.
    unfold setRotationEuler.
    match goal with
    | |- context [triggerRender ?x] =>
        destruct (triggerRender_frame x)
          as (_ & _ & _ & _ & _ & _ & _ & Eax & _)
    end.
    rewrite Eax. repeat split. exact Hax.
  - apply nudge_keeps_unit; assumption.
  - apply nudge_keeps_unit; assumption.
  - apply nudge_keeps_unit; assumption.
  - apply nudge_keeps_unit; assumption.
  - apply nudge_keeps_unit; assumption.
  - unfold fireInterval.
    destruct (lookupInterval id (intervals s)) as [pkg |]; [| exact Hu].
    unfold rotationTimerHandler.
    match goal with |- context [if ?c then _ else _] => destruct c end.
    + unfold clearInterval. destruct (rotationTimer s); exact Hu.
    + unfold unitOrientations.
      cbn [model_quaternion quaternion quaternionTouchDown axisOfRotation
           set_intervals].
      match goal with
      | |- context [triggerRender ?x] =>
          destruct (triggerRender_frame x)
            as (_ & Etd & Equ & Em & _ & _ & _ & Eax & _)
      end.
      rewrite Etd, Equ, Em, Eax.
      cbn [model_quaternion quaternion quaternionTouchDown axisOfRotation
           set_model_quaternion set_quaternion set_quaternionTouchDown].
      real_ops.
      rewrite (@rotated_unit (axisOfRotation s) _ (quaternionTouchDown s)
                 Hax Htd). repeat split; assumption.
Qed.

(** X12. From a state whose three orientations have norm 1 and whose
    stored axis is normalized, every sequence of operations and timer
    firings in which no [updateDrag] is degenerate keeps the model's
    orientation, the current orientation and the snapshot at norm 1 and
    the axis normalized. *)
Theorem unit_norm_kept_without_degenerate_updates :
  forall (s : State R) (ops : list Op),
    unitOrientations s -> acceptedUpdatesOnly s ops ->
    unitOrientations (run s ops).
Proof.
  intros s ops. revert s.
  induction ops as [| op ops IH]; intros s Hu Hacc; [exact Hu |].
  destruct Hacc as [Hop Hacc]. cbn [run fold_left]. apply IH.
  - apply step_keeps_unit; assumption.
  - exact Hacc.
Qed.

Lemma afterDrag_unit : unitOrientations afterDrag.
Proof.
  assert (Hq : Quaternion_length
                 (mkQuaternion 0 (sin (PI / 4)) 0 (cos (PI / 4))) = 1).
  { unfold Quaternion_length. cbn [q_x q_y q_z q_w]. real_ops.
    apply sqrt_unit_sum.
    pose proof (sin2_cos2 (PI / 4)) as H. unfold Rsqr in H. lra. }
  destruct basis_axes_unit as (Hy & _).
  unfold unitOrientations. rewrite afterDrag_eq, afterBegin_eq.
  cbn [model_quaternion quaternion quaternionTouchDown axisOfRotation
       set_model_quaternion set_quaternion set_axisOfRotation
       set_angleOfRotation set_startVector set_isDragging fresh constructor
       identityQuaternion].
  real_ops. repeat split; try assumption. exact identity_unit.
Qed.

Lemma unit_norm_kept_without_degenerate_updates_witness :
  unitOrientations afterDrag
  /\ acceptedUpdatesOnly afterDrag
       [EndDrag flick center; Fire 1; RotateClockwise 10]
  /\ unitOrientations
       (run afterDrag [EndDrag flick center; Fire 1; RotateClockwise 10]).
Proof.
  assert (Hacc : acceptedUpdatesOnly afterDrag
                   [EndDrag flick center; Fire 1; RotateClockwise 10]).
  { cbn [acceptedUpdatesOnly]. repeat split. }
  split; [exact afterDrag_unit |]. split; [exact Hacc |].
  exact (@unit_norm_kept_without_degenerate_updates afterDrag _
           afterDrag_unit Hacc).
Defined.

(** ** How the nudges compose *)

Lemma nudge_model (s : State R) (axis : Vector3 R) (angle : R) :
  let q :=
    Quaternion_multiplyQuaternions
      (Quaternion_setFromAxisAngle axis angle) (model_quaternion s) in
  model_quaternion (nudge s axis angle) = q
  /\ quaternion (nudge s axis angle) = q
  /\ quaternionTouchDown (nudge s axis angle) = q.
Proof.
  intros q. unfold nudge.
  match goal with
  | |- context [triggerRender ?x] =>
      destruct (triggerRender_frame x) as (_ & Etd & Equ & Em & _)
  end.
  rewrite Etd, Equ, Em. repeat split.
Qed.

(** Two rotations about the same unit axis compose into the rotation by
    the sum of the angles. *)
Lemma axisAngle_compose (u : Vector3 R) (a b : R) (q : Quaternion R) :
  Vector3_length u = 1 ->
  Quaternion_multiplyQuaternions (Quaternion_setFromAxisAngle u b)
    (Quaternion_multiplyQuaternions (Quaternion_setFromAxisAngle u a) q)
  = Quaternion_multiplyQuaternions (Quaternion_setFromAxisAngle u (a + b)) q.
Proof.
  intros Hu. apply Vector3_length_unit in Hu.
  pose proof (sin2_cos2 (a / 2)) as Ha. unfold Rsqr in Ha.
  pose proof (sin2_cos2 (b / 2)) as Hb. unfold Rsqr in Hb.
  unfold Quaternion_multiplyQuaternions, Quaternion_setFromAxisAngle.
  cbn [q_x q_y q_z q_w]. real_ops.
  replace ((a + b) / 2) with (a / 2 + b / 2) by field.
  rewrite sin_plus, cos_plus.
  set (sa := sin (a / 2)) in *. set (ca := cos (a / 2)) in *.
  set (sb := sin (b / 2)) in *. set (cb := cos (b / 2)) in *.
  destruct u as [ux uy uz]. destruct q as [x y z w].
  cbn [v_x v_y v_z q_x q_y q_z q_w] in *.
  clearbody sa ca sb cb. f_equal; nsatz.
Qed.

Lemma axisAngle_zero (u : Vector3 R) (q : Quaternion R) :
  Quaternion_multiplyQuaternions (Quaternion_setFromAxisAngle u 0) q = q.
Proof.
  unfold Quaternion_multiplyQuaternions, Quaternion_setFromAxisAngle.
  cbn [q_x q_y q_z q_w]. real_ops.
  replace (0 / 2) with 0 by field. rewrite sin_0, cos_0.
  destruct q as [x y z w]. cbn [q_x q_y q_z q_w]. f_equal; ring.
Qed.

Lemma nudge_twice (s : State R) (u : Vector3 R) (a b : R) :
  Vector3_length u = 1 ->
  model_quaternion (nudge (nudge s u a) u b)
  = model_quaternion (nudge s u (a + b)).
Proof.
  intros Hu.
  destruct (nudge_model (nudge s u a) u b) as (E2 & _).
  destruct (nudge_model s u a) as (E1 & _).
  destruct (nudge_model s u (a + b)) as (E3 & _).
  cbv zeta in E1, E2, E3. rewrite E2, E1, E3.
  apply axisAngle_compose. exact Hu.
Qed.

Lemma degToRad_plus (a b : R) : degToRad a + degToRad b = degToRad (a + b).
Proof. unfold degToRad, DEG2RAD. real_ops. ring. Qed.

Lemma degToRad_opp_plus (a b : R) :
  degToRad (- a) + degToRad (- b) = degToRad (- (a + b)).
Proof. unfold degToRad, DEG2RAD. real_ops. ring. Qed.

(** X13. Nudges about the same axis add up: two yaw, pitch or roll
    nudges in a row leave the model where a single nudge by the sum of the
    two amounts leaves it. *)
Theorem nudges_add_up :
  forall (s : State R) (a b : R),
    model_quaternion (rotateCounterclockwise (rotateCounterclockwise s a) b)
    = model_quaternion (rotateCounterclockwise s (a + b))
    /\ model_quaternion (rotateClockwise (rotateClockwise s a) b)
       = model_quaternion (rotateClockwise s (a + b))
    /\ model_quaternion (nudgePitchUp (nudgePitchUp s a) b)
       = model_quaternion (nudgePitchUp s (a + b))
    /\ model_quaternion (nudgePitchDown (nudgePitchDown s a) b)
       = model_quaternion (nudgePitchDown s (a + b))
    /\ model_quaternion (nudgeRoll (nudgeRoll s a) b)
       = model_quaternion (nudgeRoll s (a + b)).
Proof.
  intros s a b. destruct basis_axes_unit as (Hy & Hx & Hz).
  unfold rotateCounterclockwise, rotateClockwise, nudgePitchUp,
    nudgePitchDown, nudgeRoll.
  real_ops.
  rewrite <- !degToRad_plus, <- !degToRad_opp_plus.
  repeat split; apply nudge_twice; assumption.
Qed.

(** X14. Opposite nudges cancel: [rotateClockwise d] followed by
    [rotateCounterclockwise d] (or the other way round) returns the model
    to the orientation it had, and so do [nudgePitchUp d] and
    [nudgePitchDown d], and [nudgeRoll d] and [nudgeRoll (- d)]; the
    current orientation and the snapshot are then equal to it. *)
Theorem opposite_nudges_cancel :
  forall (s : State R) (d : R),
    let back (s' : State R) :=
      model_quaternion s' = model_quaternion s
      /\ quaternion s' = model_quaternion s
      /\ quaternionTouchDown s' = model_quaternion s in
    back (rotateCounterclockwise (rotateClockwise s d) d)
    /\ back (rotateClockwise (rotateCounterclockwise s d) d)
    /\ back (nudgePitchDown (nudgePitchUp s d) d)
    /\ back (nudgePitchUp (nudgePitchDown s d) d)
    /\ back (nudgeRoll (nudgeRoll s d) (- d)).
Proof.
  intros s d back. destruct basis_axes_unit as (Hy & Hx & Hz).
  assert (Hback : forall (u : Vector3 R) (a b : R),
             Vector3_length u = 1 -> a + b = 0 ->
             back (nudge (nudge s u a) u b)).
  { intros u a b Hu Hab. unfold back.
    destruct (nudge_model (nudge s u a) u b) as (Em & Equ & Etd).
    cbv zeta in Em, Equ, Etd. rewrite Em, Equ, Etd.
    destruct (nudge_model s u a) as (E1 & _). cbv zeta in E1. rewrite E1.
    rewrite (@axisAngle_compose u a b (model_quaternion s) Hu), Hab.
    rewrite axisAngle_zero. repeat split. }
  unfold rotateCounterclockwise, rotateClockwise, nudgePitchUp,
    nudgePitchDown, nudgeRoll.
  real_ops.
  repeat split; apply Hback; try assumption;
    unfold degToRad, DEG2RAD; real_ops; ring.
Qed.

(** ** The range of the Euler getter *)

Lemma atan_sign (z : R) : (z <= 0 -> atan z <= 0) /\ (0 < z -> 0 < atan z).
Proof.
  split; intros H.
  - destruct (Req_dec_T z 0) as [E | E].
    + subst z. rewrite atan_0. lra.
    + rewrite <- atan_0. left. apply atan_increasing. lra.
  - rewrite <- atan_0. apply atan_increasing. exact H.
Qed.

Lemma Ratan2_range (y x : R) : - PI < Ratan2 y x <= PI.
Proof.
  pose proof PI_RGT_0 as Hpi. unfold Ratan2.
  pose proof (atan_bound (y / x)) as [Hlo Hhi].
  destruct (Rlt_dec 0 x) as [Hx | Hx]; [lra |].
  destruct (Rlt_dec x 0) as [Hx' | Hx'].
  - assert (Hinv : / x < 0) by (apply Rinv_lt_0_compat; exact Hx').
    destruct (Rle_dec 0 y) as [Hy | Hy].
    + assert (Hz : y / x <= 0) by (unfold Rdiv; nra).
      pose proof (proj1 (atan_sign (y / x)) Hz). lra.
    + assert (Hz : 0 < y / x) by (unfold Rdiv; nra).
      pose proof (proj2 (atan_sign (y / x)) Hz). lra.
  - destruct (Rlt_dec 0 y); [lra |]. destruct (Rlt_dec y 0); lra.
Qed.

Lemma radToDeg_bounds (r : R) :
  (- PI < r <= PI -> -180 < radToDeg r <= 180)
  /\ (- (PI / 2) <= r <= PI / 2 -> -90 <= radToDeg r <= 90).
Proof.
  pose proof PI_RGT_0 as Hpi.
  assert (Hk : 0 < 180 / PI) by (apply Rdiv_lt_0_compat; lra).
  assert (Ek : 180 / PI * PI = 180) by (field; lra).
  unfold radToDeg, RAD2DEG. real_ops.
  set (k := 180 / PI) in *. split; intros [Hl Hu]; split; nra.
Qed.

(** X15. Whatever the model's orientation, [getRotationEuler] returns
    principal values: [x] and [z] in [-180, 180] and [y] in [-90, 90]
    degrees. *)
Theorem getRotationEuler_principal_ranges :
  forall s : State R,
    -180 <= t_x (getRotationEuler s) <= 180
    /\ -90 <= t_y (getRotationEuler s) <= 90
    /\ -180 <= t_z (getRotationEuler s) <= 180.
Proof.
  intros s. unfold getRotationEuler, Euler_setFromQuaternion.
  set (m := Matrix4_makeRotationFromQuaternion (model_quaternion s)).
  cbn [t_x t_y t_z].
  assert (Hy : -90 <= radToDeg (e_y (Euler_setFromRotationMatrix m)) <= 90).
  { rewrite euler_y_of_matrix. apply radToDeg_bounds. apply asin_bound. }
  assert (Hr : forall r : R, - PI < r <= PI -> -180 <= radToDeg r <= 180).
  { intros r Hr. destruct (proj1 (@radToDeg_bounds r) Hr). lra. }
  split; [| split; [exact Hy |]].
  - unfold Euler_setFromRotationMatrix. real_ops.
    destruct (Rltb (Rabs (te8 m)) (9999999 / 10000000)); cbn [e_x];
      apply Hr; apply Ratan2_range.
  - unfold Euler_setFromRotationMatrix. real_ops.
    destruct (Rltb (Rabs (te8 m)) (9999999 / 10000000)); cbn [e_z];
      apply Hr; [apply Ratan2_range |].
    pose proof PI_RGT_0. lra.
Qed.

(** ** The total rotation of a momentum animation *)

Lemma ticks_turn (s : State R) (id : nat) (r : R) :
  0 < r ->
  rotationTimer s = Some id ->
  lookupInterval id (intervals s) = Some (mkAnglePackage r r) ->
  kRotationDecelerationRate s = 1 / 60 ->
  Vector3_length (axisOfRotation s) = 1 ->
  forall k : nat, (k <= 60)%nat ->
    axisOfRotation (ticks s id k) = axisOfRotation s
    /\ quaternionTouchDown (ticks s id k)
       = Quaternion_multiplyQuaternions
           (Quaternion_setFromAxisAngle (axisOfRotation s)
              (INR k * r - INR k * (INR k + 1) * r / 120))
           (quaternionTouchDown s)
    /\ ((1 <= k)%nat ->
        model_quaternion (ticks s id k) = quaternionTouchDown (ticks s id k)).
Proof.
  intros Hr Ht Hl Hk Hu k. induction k as [| k IH]; intros Hle.
  - cbn [ticks run repeat fold_left INR]. split; [reflexivity |].
    split; [| lia].
    replace (0 * r - 0 * (0 + 1) * r / 120) with 0 by field.
    symmetry. apply axisAngle_zero.
  - destruct IH as (IHax & IHtd & _); [lia |].
    destruct (@ticks_schedule s id r Hr Ht Hl Hk k ltac:(lia))
      as (_ & El & Ek).
    assert (Hk60 : INR k <= 60).
    { replace 60 with (INR 60) by (cbn; lra). apply le_INR. lia. }
    assert (Hpos : 0 <= r - INR k * (1 / 60 * r)) by nra.
    rewrite ticks_succ.
    rewrite (@fire_running_R (ticks s id k) id _ _ El Hpos).
    cbn [axisOfRotation quaternionTouchDown model_quaternion set_intervals].
    match goal with
    | |- context [triggerRender ?x] =>
        destruct (triggerRender_frame x)
          as (_ & Etd & _ & Em & _ & _ & _ & Eax & _)
    end.
    rewrite Etd, Em, Eax.
    cbn [axisOfRotation quaternionTouchDown model_quaternion
         set_quaternionTouchDown set_model_quaternion set_quaternion].
    split; [exact IHax |]. split; [| reflexivity].
    rewrite IHax, IHtd, Ek.
    rewrite (@axisAngle_compose (axisOfRotation s) _ _
               (quaternionTouchDown s) Hu).
    rewrite S_INR. do 2 f_equal. field.
Qed.

(** X16. With a normalized stored axis, the first 60 ticks of a momentum
    animation of starting angle [r > 0] add up to one rotation about that
    axis: after [k <= 60] firings the snapshot (and, from the first firing
    on, the model) is the original snapshot turned by
    [k r - k (k + 1) r / 120]; after 60 firings the total is [59 r / 2],
    29.5 times the angle at release. *)
Theorem momentum_total_rotation :
  forall (s : State R) (id : nat) (r : R),
    0 < r ->
    rotationTimer s = Some id ->
    lookupInterval id (intervals s) = Some (mkAnglePackage r r) ->
    kRotationDecelerationRate s = 1 / 60 ->
    Vector3_length (axisOfRotation s) = 1 ->
    (forall k : nat, (k <= 60)%nat ->
       quaternionTouchDown (ticks s id k)
       = Quaternion_multiplyQuaternions
           (Quaternion_setFromAxisAngle (axisOfRotation s)
              (INR k * r - INR k * (INR k + 1) * r / 120))
           (quaternionTouchDown s)
       /\ ((1 <= k)%nat ->
           model_quaternion (ticks s id k)
           = quaternionTouchDown (ticks s id k)))
    /\ model_quaternion (ticks s id 60)
       = Quaternion_multiplyQuaternions
           (Quaternion_setFromAxisAngle (axisOfRotation s) (59 * r / 2))
           (quaternionTouchDown s).
Proof.
  intros s id r Hr Ht Hl Hk Hu.
  pose proof (@ticks_turn s id r Hr Ht Hl Hk Hu) as H.
  split.
  - intros k Hle. destruct (H k Hle) as (_ & Etd & Em). split; assumption.
  - destruct (H 60%nat (le_n 60)) as (_ & Etd & Em).
    rewrite Em by lia. rewrite Etd. do 2 f_equal.
    assert (H60 : INR 60 = 60) by (cbn; lra).
    rewrite H60. field.
Qed.

Lemma draggedAndReleased_eq :
  draggedAndReleased
  = set_rotationTimer (Some 1%nat)
      (set_nextIntervalId 2%nat
         (set_intervals [(1%nat, mkAnglePackage (PI / 2) (PI / 2))]
            (set_quaternionTouchDown
               (mkQuaternion 0 (sin (PI / 4)) 0 (cos (PI / 4)))
               (set_isDragging false afterDrag)))).
Proof.
  unfold draggedAndReleased. rewrite endDrag_flick.
  - rewrite afterDrag_eq, afterBegin_eq. reflexivity.
  - apply afterDrag_view.
  - rewrite afterDrag_eq, afterBegin_eq. reflexivity.
Qed.

Lemma momentum_total_rotation_witness :
  0 < PI / 2
  /\ Vector3_length (axisOfRotation (draggedAndReleased : State R)) = 1
  /\ model_quaternion (ticks (draggedAndReleased : State R) 1 60)
     = Quaternion_multiplyQuaternions
         (Quaternion_setFromAxisAngle
            (axisOfRotation (draggedAndReleased : State R))
            (59 * (PI / 2) / 2))
         (quaternionTouchDown (draggedAndReleased : State R)).
Proof.
  assert (Ht : rotationTimer (draggedAndReleased : State R) = Some 1%nat)
    by (rewrite draggedAndReleased_eq; reflexivity).
  assert (Hl : lookupInterval 1 (intervals (draggedAndReleased : State R))
               = Some (mkAnglePackage (PI / 2) (PI / 2)))
    by (rewrite draggedAndReleased_eq; reflexivity).
  assert (Hk : kRotationDecelerationRate (draggedAndReleased : State R)
               = 1 / 60)
    by (rewrite draggedAndReleased_eq, afterDrag_eq, afterBegin_eq;
        reflexivity).
  assert (Hu : Vector3_length (axisOfRotation (draggedAndReleased : State R))
               = 1).
  { rewrite draggedAndReleased_eq, afterDrag_eq.
    exact (proj1 basis_axes_unit). }
  split; [exact PI2_RGT_0 |]. split; [exact Hu |].
  exact (proj2 (@momentum_total_rotation draggedAndReleased 1%nat (PI / 2)
                  PI2_RGT_0 Ht Hl Hk Hu)).
Defined.

(** ** The direction of a horizontal drag *)

Lemma plane_default (s : State R) (p : Point R) :
  0 < width (viewBounds s) -> 0 < height (viewBounds s) ->
  ballCenter s = mkPoint 0 0 -> ballRadius s = 1 ->
  planeX s p
  = (2 * p_x p - width (viewBounds s))
    / Rmax (width (viewBounds s)) (height (viewBounds s))
  /\ planeY s p
     = (height (viewBounds s) - 2 * p_y p)
       / Rmax (width (viewBounds s)) (height (viewBounds s)).
Proof.
  intros Hw Hh Hc Hr.
  assert (HM : 0 < Rmax (width (viewBounds s)) (height (viewBounds s))).
  { apply Rlt_le_trans with (width (viewBounds s));
      [exact Hw | apply Rmax_l]. }
  unfold planeX, planeY, locationInBallCoordinates.
  rewrite Hc, Hr. cbn [p_x p_y]. real_ops. split; field; split; lra.
Qed.

(** X17. A drag that begins at the center of the view and moves
    horizontally to the right by [X] ball units ([1e-4 <= X <= 1], with
    positive view bounds and the default ball) yaws the model: the stored
    axis becomes the vertical axis (0, 1, 0), the angle lies in
    (0, PI / 2] and has sine [X], and the orientation written to the model
    is that rotation applied to the drag-start snapshot. *)
Theorem horizontal_drag_yaws :
  forall (s : State R) (p : Point R),
    0 < width (viewBounds s) -> 0 < height (viewBounds s) ->
    ballCenter s = mkPoint 0 0 -> ballRadius s = 1 ->
    p_y p = height (viewBounds s) / 2 ->
    let w := width (viewBounds s) in
    let h := height (viewBounds s) in
    let X := (2 * p_x p - w) / Rmax w h in
    1 / 10000 <= X <= 1 ->
    let s1 := beginDrag s (mkPoint (w / 2) (h / 2)) in
    let s2 := updateDrag s1 p in
    startVector s1 = mkVector3 0 0 1
    /\ axisOfRotation s2 = mkVector3 0 1 0
    /\ 0 < angleOfRotation s2 <= PI / 2
    /\ sin (angleOfRotation s2) = X
    /\ model_quaternion s2
       = Quaternion_multiplyQuaternions
           (Quaternion_setFromAxisAngle (mkVector3 0 1 0)
              (angleOfRotation s2))
           (quaternionTouchDown s).
Proof.
  intros s p Hw Hh Hc Hr Hpy w h X [HXl HXu] s1 s2.
  assert (HM : 0 < Rmax w h).
  { apply Rlt_le_trans with w; [exact Hw | apply Rmax_l]. }
  (* the start vector *)
  assert (Hview : forall q : Point R,
             ballLocationInCameraSpaceXYPlane s1 q
             = ballLocationInCameraSpaceXYPlane s q).
  { intros q. unfold s1, beginDrag. destruct (rotationTimer s); reflexivity. }
  assert (Hstart1 : startVector s1
                    = ballLocationInCameraSpaceXYPlane s
                        (mkPoint (w / 2) (h / 2))).
  { unfold s1, beginDrag. destruct (rotationTimer s); reflexivity. }
  assert (Htd1 : quaternionTouchDown s1 = quaternionTouchDown s).
  { unfold s1, beginDrag. destruct (rotationTimer s); reflexivity. }
  assert (Hstart : startVector s1 = mkVector3 0 0 1).
  { rewrite Hstart1.
    destruct (@plane_default s (mkPoint (w / 2) (h / 2)) Hw Hh Hc Hr)
      as [EX EY].
    cbn [p_x p_y] in EX, EY. fold w h in EX, EY.
    assert (EX0 : planeX s (mkPoint (w / 2) (h / 2)) = 0)
      by (rewrite EX; field; lra).
    assert (EY0 : planeY s (mkPoint (w / 2) (h / 2)) = 0)
      by (rewrite EY; field; lra).
    rewrite ballXY_inside by (rewrite EX0, EY0; lra).
    rewrite EX0, EY0. f_equal.
    replace (1 - (0 * 0 + 0 * 0)) with 1 by ring. apply sqrt_1. }
  (* the end vector *)
  set (z := sqrt (1 - X * X)).
  assert (Hz0 : 0 <= z) by apply sqrt_pos.
  assert (Hzz : z * z = 1 - X * X) by (apply sqrt_sqrt; nra).
  assert (Hend : ballLocationInCameraSpaceXYPlane s1 p = mkVector3 X 0 z).
  { rewrite Hview.
    destruct (@plane_default s p Hw Hh Hc Hr) as [EX EY].
    fold w h in EX, EY. fold X in EX.
    assert (EY0 : planeY s p = 0).
    { rewrite EY, Hpy. fold h. field. lra. }
    rewrite ballXY_inside by (rewrite EX, EY0; nra).
    rewrite EX, EY0. unfold z. do 2 f_equal. ring. }
  assert (Hcross : dragCross s1 p = mkVector3 0 X 0).
  { unfold dragCross. rewrite Hend, Hstart. unfold Vector3_crossVectors.
    cbn [v_x v_y v_z]. real_ops. f_equal; ring. }
  assert (Hlen : Vector3_length (dragCross s1 p) = X).
  { rewrite Hcross. unfold Vector3_length. cbn [v_x v_y v_z]. real_ops.
    replace (0 * 0 + X * X + 0 * 0) with (X * X) by ring.
    apply sqrt_square. lra. }
  assert (Hnorm : Vector3_normalize (dragCross s1 p) = mkVector3 0 1 0).
  { unfold Vector3_normalize, Vector3_divideScalar, Vector3_multiplyScalar.
    rewrite Hlen. rewrite Hcross. cbn [v_x v_y v_z]. real_ops.
    unfold Rtruthy. destruct (Req_dec_T X 0) as [E | E]; [lra |].
    f_equal; field; exact E. }
  assert (Hangle : dragAngle s1 p = acos z).
  { unfold dragAngle. rewrite Hend, Hstart. unfold Vector3_dot.
    cbn [v_x v_y v_z]. real_ops.
    replace (0 * X + 0 * 0 + 1 * z) with z by ring.
    rewrite clamp_unit by (split; nra). reflexivity. }
  assert (Hz1 : -1 <= z <= 1) by (split; nra).
  assert (Hsin : sin (acos z) = X).
  { rewrite sin_acos by exact Hz1. unfold Rsqr. rewrite Hzz.
    replace (1 - (1 - X * X)) with (X * X) by ring.
    apply sqrt_square. lra. }
  assert (Hrange : 0 < acos z <= PI / 2).
  { pose proof (acos_bound z) as [Ha0 Ha1].
    pose proof (cos_acos z Hz1) as Hcos.
    split.
    - destruct (Req_dec_T (acos z) 0) as [E | E]; [| lra].
      rewrite E, sin_0 in Hsin. lra.
    - destruct (Rle_dec (acos z) (PI / 2)) as [Hle | Hgt]; [exact Hle |].
      assert (cos (acos z) < 0) by (apply cos_lt_0; lra). lra. }
  assert (Hupd : s2
                 = triggerRender
                     (set_model_quaternion
                        (Quaternion_multiplyQuaternions
                           (dragQuaternion s1 p) (quaternionTouchDown s1))
                        (set_quaternion
                           (Quaternion_multiplyQuaternions
                              (dragQuaternion s1 p) (quaternionTouchDown s1))
                           (set_axisOfRotation
                              (Vector3_normalize (dragCross s1 p))
                              (set_angleOfRotation (dragAngle s1 p) s1))))).
  { unfold s2. apply updateDrag_applied_R. rewrite Hlen. exact HXl. }
  split; [exact Hstart |].
  rewrite Hupd.
  match goal with
  | |- context [triggerRender ?x] =>
      destruct (triggerRender_frame x)
        as (_ & _ & _ & Em & _ & _ & _ & Eax & Ean)
  end.
  rewrite Em, Eax, Ean.
  cbn [model_quaternion axisOfRotation angleOfRotation set_model_quaternion
       set_quaternion set_axisOfRotation set_angleOfRotation].
  unfold dragQuaternion. rewrite Hnorm, Hangle, Htd1.
  repeat split; try assumption; apply Hrange.
Qed.

Lemma horizontal_drag_yaws_witness :
  1 / 10000 <= (2 * 800 - 800) / Rmax 800 600 <= 1
  /\ axisOfRotation (afterDrag : State R) = mkVector3 0 1 0.
Proof.
  assert (Hw : 0 < width (viewBounds (fresh : State R))).
  { unfold fresh. cbn [viewBounds constructor width]. real_ops. lra. }
  assert (Hh : 0 < height (viewBounds (fresh : State R))).
  { unfold fresh. cbn [viewBounds constructor height]. real_ops. lra. }
  assert (HX : 1 / 10000 <= (2 * 800 - 800) / Rmax 800 600 <= 1).
  { rewrite Rmax_left by lra. lra. }
  assert (Hpy : p_y (rightEdge : Point R)
                = height (viewBounds (fresh : State R)) / 2).
  { unfold rightEdge, fresh. cbn [p_y viewBounds constructor height].
    real_ops. lra. }
  split; [exact HX |].
  pose proof (@horizontal_drag_yaws fresh rightEdge Hw Hh eq_refl eq_refl
                Hpy HX) as H.
  cbv zeta in H. destruct H as (_ & Hax & _).
  transitivity
    (axisOfRotation
       (updateDrag
          (beginDrag (fresh : State R)
             (mkPoint (width (viewBounds (fresh : State R)) / 2)
                (height (viewBounds (fresh : State R)) / 2)))
          rightEdge)); [| exact Hax].
  assert (Eb : beginDrag (fresh : State R)
                 (mkPoint (width (viewBounds (fresh : State R)) / 2)
                    (height (viewBounds (fresh : State R)) / 2))
               = afterBegin).
  { rewrite afterBegin_eq. rewrite beginDrag_idle by reflexivity.
    rewrite (@ballXY_at_center fresh
               (mkPoint (width (viewBounds (fresh : State R)) / 2)
                  (height (viewBounds (fresh : State R)) / 2)));
      [reflexivity | repeat split | |];
      unfold fresh; cbn [p_x p_y viewBounds constructor width height];
      real_ops; lra. }
  rewrite Eb. reflexivity.
Defined.
